(** * Store inventory (app.py): a shallow embedding and its properties

    The program keeps one table of products in SQLite through peewee, fills
    it from [inventory.csv] at startup and offers a console menu to add a
    product, view one by id and back the table up. Embedded here are the
    price and date codec, the import, the insertion of a record and the
    prompts of the add and view commands.

    Python values are embedded as follows.
    - [int] is [Z]; [str] is [string], a character being a code point below
      256 (text outside Latin-1 is not covered).
    - An exception is a constructor of [exn]; a call that may raise returns
      an [outcome].
    - The database table, the console and the wall clock are the fields of
      [world], threaded through the effectful functions by the monad [M].
    The library calls ([int], [str], [re], [datetime], [csv], peewee over
    SQLite) are modelled next to their first use. *)

From Stdlib Require Import ZArith List String Ascii Bool Lia.
Import ListNotations.

#[local] Open Scope string_scope.
#[local] Open Scope Z_scope.

(** ** Exceptions and outcomes *)

Inductive exn : Type :=
| ValueError
| TypeError
| OverflowError
| EOFError
| FileNotFoundError
| IntegrityError
| DoesNotExist.

(** [Hang] is a loop that never ends. *)
Inductive outcome (A : Type) : Type :=
| Return (a : A)
| Raise (e : exn)
| Hang.

Arguments Return {A} a.
Arguments Raise {A} e.
Arguments Hang {A}.

Definition outcome_map {A B} (f : A -> B) (o : outcome A) : outcome B :=
  match o with
  | Return a => Return (f a)
  | Raise e => Raise e
  | Hang => Hang
  end.

Definition exn_eqb (a b : exn) : bool :=
  match a, b with
  | ValueError, ValueError | TypeError, TypeError
  | OverflowError, OverflowError | EOFError, EOFError
  | FileNotFoundError, FileNotFoundError
  | IntegrityError, IntegrityError | DoesNotExist, DoesNotExist => true
  | _, _ => false
  end.

(** ** Strings *)

Module Str.

Definition code (c : ascii) : Z := Z.of_N (N_of_ascii c).

(** A decimal digit, as [\d] and [int] see it below code point 256. *)
Definition digit (c : ascii) : option Z :=
  let n := code c in
  if (48 <=? n) && (n <=? 57) then Some (n - 48) else None.

Definition is_digit (c : ascii) : bool :=
  match digit c with Some _ => true | None => false end.

Definition of_digit (d : Z) : ascii := ascii_of_N (Z.to_N (48 + d)).

Fixpoint all_digits (s : string) : bool :=
  match s with
  | EmptyString => true
  | String c r => is_digit c && all_digits r
  end.

(** [c in s] for a one-character [c]. *)
Fixpoint contains (c : ascii) (s : string) : bool :=
  match s with
  | EmptyString => false
  | String d r => Ascii.eqb d c || contains c r
  end.

(** [re.sub('[...]', '', s)] for a character class [cls]: every
    character of the class is dropped. *)
Fixpoint remove (cls : ascii -> bool) (s : string) : string :=
  match s with
  | EmptyString => EmptyString
  | String c r => if cls c then remove cls r else String c (remove cls r)
  end.

Fixpoint take (n : nat) (s : string) : string :=
  match n, s with
  | S k, String c r => String c (take k r)
  | _, _ => EmptyString
  end.

Fixpoint drop (n : nat) (s : string) : string :=
  match n, s with
  | S k, String _ r => drop k r
  | _, _ => s
  end.

Definition len (s : string) : Z := Z.of_nat (String.length s).

(** A slice bound [k] of a string of length [n]: a negative bound counts
    from the end, and the result is clipped to [0..n]. *)
Definition bound (k n : Z) : nat :=
  Z.to_nat (Z.max 0 (Z.min n (if k <? 0 then k + n else k))).

(** [s[:k]] and [s[k:]]. *)
Definition slice_to (s : string) (k : Z) : string := take (bound k (len s)) s.
Definition slice_from (s : string) (k : Z) : string := drop (bound k (len s)) s.

(** The value of a run of digits read left to right, starting from [acc];
    characters that are no digits count as 0 (never used on such). *)
Fixpoint digits_value (acc : Z) (s : string) : Z :=
  match s with
  | EmptyString => acc
  | String c r =>
      digits_value (10 * acc + match digit c with Some d => d | None => 0 end) r
  end.

End Str.

(** ** [int(s)] and [str(n)]

    [int] on a string: blanks around the literal are skipped, one sign is
    allowed, then come decimal digits, where single underscores may stand
    between two digits. Anything else is a [ValueError]. The blanks are
    tab, line feed, vertical tab, form feed, carriage return and space,
    and U+0085 and U+00A0, which [int] turns into a space. The limit on
    the number of digits (4300 by default in recent interpreters) is not
    modelled. *)

Definition is_space (c : ascii) : bool :=
  let n := Str.code c in
  ((9 <=? n) && (n <=? 13)) || (n =? 32) || (n =? 133) || (n =? 160).

Fixpoint skip_spaces (s : string) : string :=
  match s with
  | String c r => if is_space c then skip_spaces r else s
  | EmptyString => s
  end.

(** The digits of the literal. [after_digit] tells that the character just
    read was a digit: an underscore is accepted only then, and the literal
    can only end then. Returns the value and the text left. *)
Fixpoint int_body (acc : Z) (after_digit : bool) (s : string) : option (Z * string) :=
  match s with
  | EmptyString => if after_digit then Some (acc, s) else None
  | String c r =>
      match Str.digit c with
      | Some d => int_body (10 * acc + d) true r
      | None =>
          if Ascii.eqb c "_" then
            if after_digit then int_body acc false r else None
          else if after_digit then Some (acc, s) else None
      end
  end.

Definition py_int (s : string) : outcome Z :=
  let s1 := skip_spaces s in
  let '(sign, s2) :=
    match s1 with
    | String "+" r => (1, r)
    | String "-" r => (-1, r)
    | _ => (1, s1)
    end in
  match int_body 0 false s2 with
  | Some (v, rest) =>
      match skip_spaces rest with
      | EmptyString => Return (sign * v)
      | _ => Raise ValueError
      end
  | None => Raise ValueError
  end.

(** The decimal digits of [n >= 0], most significant first, pushed in front
    of [acc]. [fuel] bounds the number of digits. *)
Fixpoint digits_loop (fuel : nat) (n : Z) (acc : string) : string :=
  match fuel with
  | O => acc
  | S f =>
      let acc' := String (Str.of_digit (n mod 10)) acc in
      if n <? 10 then acc' else digits_loop f (n / 10) acc'
  end.

Definition str_nonneg (n : Z) : string :=
  digits_loop (S (Z.to_nat (Z.log2 n))) n "".

(** [str(n)] for an int. *)
Definition py_str_int (n : Z) : string :=
  if n <? 0 then "-" ++ str_nonneg (- n) else str_nonneg n.

(** ** Codec: prices *)

Definition is_dollar_or_dot (c : ascii) : bool := Ascii.eqb c "$" || Ascii.eqb c ".".
Definition is_dollar (c : ascii) : bool := Ascii.eqb c "$".

Definition format_price_str_to_int (pricestr : string) : outcome Z :=
  if Str.contains "." pricestr then
    py_int (Str.remove is_dollar_or_dot pricestr)
  else
    outcome_map (fun n => n * 100) (py_int (Str.remove is_dollar pricestr)).

(** What an INTEGER column gives back: an integer, or the text that was put
    there when it was no integer literal. *)
Inductive sqlval : Type :=
| SInt (z : Z)
| SText (s : string).

(** [str(v)] for such a value. *)
Definition py_str (v : sqlval) : string :=
  match v with
  | SInt z => py_str_int z
  | SText s => s
  end.

Definition format_price_int_to_str (price : sqlval) : string :=
  let pricestr := py_str price in
  if Str.len pricestr =? 1 then
    "$0.0" ++ pricestr
  else if Str.len pricestr =? 2 then
    "$0." ++ pricestr
  else
    "$" ++ Str.slice_to pricestr (Str.len pricestr - 2) ++ "." ++ Str.slice_from pricestr (-2).

(** ** Codec: dates *)

(** A naive [datetime.datetime]. *)
Record datetime : Type := mk_datetime {
  year : Z; month : Z; day : Z;
  hour : Z; minute : Z; second : Z; microsecond : Z }.

Definition datetime_fields (d : datetime) : list Z :=
  [year d; month d; day d; hour d; minute d; second d; microsecond d].

Fixpoint lex_compare (a b : list Z) : comparison :=
  match a, b with
  | [], [] => Eq
  | [], _ :: _ => Lt
  | _ :: _, [] => Gt
  | x :: a', y :: b' =>
      match x ?= y with
      | Eq => lex_compare a' b'
      | c => c
      end
  end.

(** [a > b] on datetimes. *)
Definition datetime_gt (a b : datetime) : bool :=
  match lex_compare (datetime_fields a) (datetime_fields b) with
  | Gt => true
  | _ => false
  end.

Definition is_leap (y : Z) : bool :=
  (y mod 4 =? 0) && (negb (y mod 100 =? 0) || (y mod 400 =? 0)).

Definition days_in_month (y m : Z) : Z :=
  if m =? 2 then (if is_leap y then 29 else 28)
  else if (m =? 4) || (m =? 6) || (m =? 9) || (m =? 11) then 30
  else 31.

(** [datetime(y, m, d)]: midnight of a day of the calendar, or [ValueError]. *)
Definition make_date (y m d : Z) : outcome datetime :=
  if (1 <=? y) && (y <=? 9999) && (1 <=? m) && (m <=? 12)
     && (1 <=? d) && (d <=? days_in_month y m)
  then Return (mk_datetime y m d 0 0 0 0)
  else Raise ValueError.

(** [strptime] turns the format ['%m/%d/%Y'] into a regular expression,
    matched at the start of the text. Each directive is an alternation, and
    the alternatives are tried in the order written:
    [%m] is [1[0-2]|0[1-9]|[1-9]], [%d] is [3[01]|[12]\d|0[1-9]|[1-9]| [1-9]],
    [%Y] is [\d\d\d\d]. The functions below list, in that order, the value and
    the text left for every alternative that matches. *)
Module Strptime.

Definition in_range (lo hi : Z) (c : ascii) : option Z :=
  match Str.digit c with
  | Some d => if (lo <=? d) && (d <=? hi) then Some d else None
  | None => None
  end.

(** Two characters, the first in [lo1..hi1] and the second in [lo2..hi2]. *)
Definition pair (lo1 hi1 lo2 hi2 : Z) (s : string) : list (Z * string) :=
  match s with
  | String a (String b r) =>
      match in_range lo1 hi1 a, in_range lo2 hi2 b with
      | Some x, Some y => [(10 * x + y, r)]
      | _, _ => []
      end
  | _ => []
  end.

Definition single (lo hi : Z) (s : string) : list (Z * string) :=
  match s with
  | String a r =>
      match in_range lo hi a with
      | Some x => [(x, r)]
      | None => []
      end
  | _ => []
  end.

Definition blank_single (s : string) : list (Z * string) :=
  match s with
  | String " " r => single 1 9 r
  | _ => []
  end.

Definition directive_m (s : string) : list (Z * string) :=
  pair 1 1 0 2 s ++ pair 0 0 1 9 s ++ single 1 9 s.

Definition directive_d (s : string) : list (Z * string) :=
  pair 3 3 0 1 s ++ pair 1 2 0 9 s ++ pair 0 0 1 9 s ++ single 1 9 s
  ++ blank_single s.

Definition directive_Y (s : string) : list (Z * string) :=
  match s with
  | String a (String b (String c (String d r))) =>
      match Str.digit a, Str.digit b, Str.digit c, Str.digit d with
      | Some x, Some y, Some z, Some t => [(1000 * x + 100 * y + 10 * z + t, r)]
      | _, _, _, _ => []
      end
  | _ => []
  end.

Definition slash (s : string) : list string :=
  match s with
  | String "/" r => [r]
  | _ => []
  end.

(** All the ways the whole expression matches a prefix of [s], best first:
    month, day, year and the text left unread. *)
Definition matches (s : string) : list (Z * Z * Z * string) :=
  flat_map (fun '(m, r1) =>
    flat_map (fun r2 =>
      flat_map (fun '(d, r3) =>
        flat_map (fun r4 =>
          map (fun '(y, r5) => (m, d, y, r5)) (directive_Y r4))
          (slash r3))
        (directive_d r2))
      (slash r1))
    (directive_m s).

End Strptime.

(** [datetime.strptime(s, '%m/%d/%Y')]: the first match decides; text left
    after it, or no match, or a day that does not exist, is a [ValueError]. *)
Definition strptime_mdY (s : string) : outcome datetime :=
  match Strptime.matches s with
  | (m, d, y, EmptyString) :: _ => make_date y m d
  | _ => Raise ValueError
  end.

(** Zero padding to [w] characters. *)
Definition zfill (w : nat) (s : string) : string :=
  String.concat "" (repeat "0" (w - String.length s)) ++ s.

(** [datetime.strftime(dt, '%m/%d/%Y')]: month and day are padded to two
    digits. The year is written by the C library: glibc, modelled here,
    does not pad it, so a year below 1000 has fewer than four digits
    (other C libraries pad it to four). *)
Definition strftime_mdY (dt : datetime) : string :=
  zfill 2 (py_str_int (month dt)) ++ "/" ++ zfill 2 (py_str_int (day dt))
  ++ "/" ++ py_str_int (year dt).

(** ** The table and the program state *)

(** A Python value as the program hands it to a field of the model: [None],
    an int, a string, or a tuple of such. *)
#[warnings="-register-all"] Inductive pyval : Type :=
| PNone
| PInt (z : Z)
| PStr (s : string)
| PTuple (items : list pyval).

(** [class Product(Model)]. With [V := sqlval] it is a row of the table;
    with [V := pyval] it is a model instance in memory, whose integer
    attributes hold whatever was assigned to them. *)
Record Product (V : Type) : Type := mk_Product {
  product_id : Z;
  product_name : string;
  product_quantity : V;
  product_price : V;
  date_updated : datetime }.

Arguments mk_Product {V}.
Arguments product_id {V}.
Arguments product_name {V}.
Arguments product_quantity {V}.
Arguments product_price {V}.
Arguments date_updated {V}.

(** The dict [record] that [add_record_to_db] receives. Both callers fill
    the same four keys: the name is a string, or [None] for a cell missing
    from a short csv line; the date is always a datetime. *)
Module Dict.
Record t : Type := mk {
  product_name : option string;
  product_quantity : pyval;
  product_price : pyval;
  date_updated : datetime }.
End Dict.

(** A line of [inventory.csv] as [csv.DictReader] yields it under the
    header [product_name,product_price,product_quantity,date_updated]: a
    cell missing from a short line reads [None]. *)
Module Csv.
Record row : Type := mk {
  product_name : option string;
  product_price : option string;
  product_quantity : option string;
  date_updated : option string }.
End Csv.

Record world : Type := mk_world {
  table : list (Product sqlval);          (* the rows of [product] in inventory.db *)
  inventory_csv : option (list Csv.row);  (* [None]: there is no such file *)
  stdin : list string;                    (* the lines not read yet *)
  stdout : list string;                   (* what was written, oldest first *)
  clock : nat -> datetime }.              (* what the next calls of [datetime.now()] return *)

Definition set_table (t : list (Product sqlval)) (w : world) : world :=
  mk_world t (inventory_csv w) (stdin w) (stdout w) (clock w).
Definition set_stdin (i : list string) (w : world) : world :=
  mk_world (table w) (inventory_csv w) i (stdout w) (clock w).
Definition set_stdout (o : list string) (w : world) : world :=
  mk_world (table w) (inventory_csv w) (stdin w) o (clock w).
Definition set_clock (c : nat -> datetime) (w : world) : world :=
  mk_world (table w) (inventory_csv w) (stdin w) (stdout w) c.

(** ** The monad of effectful code *)

Definition M (A : Type) : Type := world -> outcome A * world.

Definition ret {A} (a : A) : M A := fun w => (Return a, w).

Definition bind {A B} (m : M A) (k : A -> M B) : M B :=
  fun w =>
    match m w with
    | (Return a, w') => k a w'
    | (Raise e, w') => (Raise e, w')
    | (Hang, w') => (Hang, w')
    end.

Definition raise {A} (e : exn) : M A := fun w => (Raise e, w).

Definition lift {A} (o : outcome A) : M A := fun w => (o, w).

(** [try: body except <catches>: handler]. *)
Definition try_except {A} (body : M A) (catches : exn -> bool) (handler : M A) : M A :=
  fun w =>
    match body w with
    | (Raise e, w') => if catches e then handler w' else (Raise e, w')
    | r => r
    end.

Declare Scope M_scope.
Delimit Scope M_scope with M.
Notation "x <- m ;; k" := (bind m (fun x => k))
  (at level 61, m at next level, right associativity) : M_scope.
Notation "m ;; k" := (bind m (fun _ => k))
  (at level 61, right associativity) : M_scope.
#[local] Open Scope M_scope.

Definition bare_except : exn -> bool := fun _ => true.

Definition print (s : string) : M unit :=
  fun w => (Return tt, set_stdout (stdout w ++ [s]) w).

(** [input(prompt)]: the prompt is written, then a line is read;
    [EOFError] when there is none. *)
Definition input (prompt : string) : M string :=
  fun w =>
    let w' := set_stdout (stdout w ++ [prompt]) w in
    match stdin w with
    | [] => (Raise EOFError, w')
    | l :: rest => (Return l, set_stdin rest w')
    end.

Definition datetime_now : M datetime :=
  fun w => (Return (clock w O), set_clock (fun n => clock w (S n)) w).

(** [while not valid:] around a body that reads one line of input per pass.
    [pass] is one pass: [Some v] when it sets [valid], [None] to go round
    again. [lines] is the input still unread when the loop is entered. A
    pass that asks for another round when no input is left finds the same
    situation in every later round: the loop never ends. *)
Fixpoint while_not_valid {A} (pass : M (option A)) (lines : list string) : M A :=
  r <- pass ;;
  match r with
  | Some v => ret v
  | None =>
      match lines with
      | [] => fun w => (Hang, w)
      | _ :: rest => while_not_valid pass rest
      end
  end.

(** ** peewee over SQLite *)

Record Field : Type := mk_Field { null : bool; unique : bool }.

(** [CharField()], [IntegerField()], [DateTimeField()]: no argument, so the
    column is NOT NULL and not UNIQUE. *)
Definition CharField : Field := mk_Field false false.
Definition IntegerField : Field := mk_Field false false.
Definition DateTimeField : Field := mk_Field false false.

Definition sqlval_eqb (a b : sqlval) : bool :=
  match a, b with
  | SInt x, SInt y => x =? y
  | SText x, SText y => String.eqb x y
  | _, _ => false
  end.

Definition datetime_eqb (a b : datetime) : bool :=
  match lex_compare (datetime_fields a) (datetime_fields b) with
  | Eq => true
  | _ => false
  end.

Definition of_sql (v : sqlval) : pyval :=
  match v with
  | SInt z => PInt z
  | SText s => PStr s
  end.

(** SQLite integers have 64 bits. *)
Definition sqlite_int (z : Z) : outcome sqlval :=
  if (- 2 ^ 63 <=? z) && (z <? 2 ^ 63) then Return (SInt z) else Raise OverflowError.

(** [IntegerField.db_value]: [None] stays (NULL); otherwise [int(value)],
    where a [ValueError] leaves the value as it is. A tuple is a
    [TypeError]. Text that [int] refuses is kept as text here; SQLite's
    INTEGER affinity would convert it when it reads as a number with a
    fraction or an exponent (1e3, 1.5), so the properties that say what a
    row holds are stated for text that [int] accepts. *)
Definition IntegerField_db_value (v : pyval) : outcome (option sqlval) :=
  match v with
  | PNone => Return None
  | PInt z => outcome_map Some (sqlite_int z)
  | PStr s =>
      match py_int s with
      | Return z => outcome_map Some (sqlite_int z)
      | _ => Return (Some (SText s))
      end
  | PTuple _ => Raise TypeError
  end.

(** A constraint of column [f] fails: NULL in a NOT NULL column, or a value
    already there in a UNIQUE column. *)
Definition violates (f : Field) (is_null already_there : bool) : bool :=
  (negb (null f) && is_null) || (unique f && already_there).

Definition is_none {A} (o : option A) : bool :=
  match o with None => true | Some _ => false end.

Definition has {A} (eqb : A -> A -> bool) (col : Product sqlval -> A)
    (v : option A) (t : list (Product sqlval)) : bool :=
  match v with
  | Some x => existsb (fun p => eqb (col p) x) t
  | None => false
  end.

(** The key of a new row: one more than the largest in use, 1 in an empty
    table. *)
Definition next_id (t : list (Product sqlval)) : Z :=
  match t with
  | [] => 1
  | p :: r => 1 + fold_left Z.max (map product_id r) (product_id p)
  end.

(** [Product.create(product_name=.., product_quantity=.., product_price=..,
    date_updated=..)]: an INSERT, giving back the new row.
    [IntegrityError] when a constraint of the table fails. *)
Definition Product_create (name : option string) (quantity price : pyval)
    (date : datetime) : M (Product sqlval) :=
  q <- lift (IntegerField_db_value quantity) ;;
  p <- lift (IntegerField_db_value price) ;;
  fun w =>
    let t := table w in
    if violates CharField (is_none name) (has String.eqb product_name name t)
       || violates IntegerField (is_none q) (has sqlval_eqb product_quantity q t)
       || violates IntegerField (is_none p) (has sqlval_eqb product_price p t)
       || violates DateTimeField false (has datetime_eqb date_updated (Some date) t)
    then (Raise IntegrityError, w)
    else
      match name, q, p with
      | Some n, Some q', Some p' =>
          let row := mk_Product (next_id t) n q' p' date in
          (Return row, set_table (t ++ [row]) w)
      | _, _, _ => (Raise IntegrityError, w)
      end.

(** [Product.get(<condition>)]: the first row that meets the condition. *)
Definition Product_get (condition : Product sqlval -> bool) : M (Product sqlval) :=
  fun w =>
    match find condition (table w) with
    | Some p => (Return p, w)
    | None => (Raise DoesNotExist, w)
    end.

(** [product_name=name]; no row has the name [None]. *)
Definition name_is (name : option string) (p : Product sqlval) : bool :=
  match name with
  | Some n => String.eqb (product_name p) n
  | None => false
  end.

(** [Product.product_id == id]; the key is bound as an SQLite integer. *)
Definition Product_get_by_id (id : Z) : M (Product sqlval) :=
  _ <- lift (sqlite_int id) ;;
  Product_get (fun p => product_id p =? id).

(** The instance that [get] builds from a row. *)
Definition load (p : Product sqlval) : Product pyval :=
  mk_Product (product_id p) (product_name p) (of_sql (product_quantity p))
    (of_sql (product_price p)) (date_updated p).

(** [instance.save()] of an instance that came from the table: an UPDATE of
    all the columns of the row with its key. *)
Definition Product_save (i : Product pyval) : M unit :=
  q <- lift (IntegerField_db_value (product_quantity i)) ;;
  p <- lift (IntegerField_db_value (product_price i)) ;;
  fun w =>
    match q, p with
    | Some q', Some p' =>
        let row := mk_Product (product_id i) (product_name i) q' p' (date_updated i) in
        (Return tt,
         set_table (map (fun r => if product_id r =? product_id i then row else r) (table w)) w)
    | _, _ => (Raise IntegrityError, w)
    end.

(** ** The application *)

Definition str_or_none (o : option string) : pyval :=
  match o with
  | Some s => PStr s
  | None => PNone
  end.

(** [if datestr:] holds for a string that is not empty. *)
Definition format_date_str_to_datetime (datestr : option string) : M datetime :=
  match datestr with
  | Some (String _ _ as s) => lift (strptime_mdY s)
  | _ => datetime_now
  end.

(** The [def] statements run when the module is loaded. The default of
    [format_date_datetime_to_str], [dt=datetime.now()], is evaluated by its
    [def], and the function keeps that value. *)
Record defaults : Type := mk_defaults { dt_default : datetime }.

Definition load_module : M defaults :=
  now <- datetime_now ;;
  ret (mk_defaults now).

Definition format_date_datetime_to_str (g : defaults) (dt : option datetime) : string :=
  strftime_mdY (match dt with Some d => d | None => dt_default g end).

Definition is_IntegrityError (e : exn) : bool := exn_eqb e IntegrityError.
Definition is_FileNotFoundError (e : exn) : bool := exn_eqb e FileNotFoundError.

(** The two assignments in the handler end in a comma: each stores a tuple
    of one element. *)
Definition add_record_to_db (record : Dict.t) : M unit :=
  try_except
    (_ <- Product_create (Dict.product_name record) (Dict.product_quantity record)
            (Dict.product_price record) (Dict.date_updated record) ;;
     ret tt)
    is_IntegrityError
    (row <- Product_get (name_is (Dict.product_name record)) ;;
     let product_record := load row in
     let product_record :=
       mk_Product (product_id product_record) (product_name product_record)
         (PTuple [Dict.product_quantity record]) (product_price product_record)
         (date_updated product_record) in
     let product_record :=
       mk_Product (product_id product_record) (product_name product_record)
         (product_quantity product_record) (PTuple [Dict.product_price record])
         (date_updated product_record) in
     let product_record :=
       if datetime_gt (Dict.date_updated record) (date_updated product_record) then
         mk_Product (product_id product_record) (product_name product_record)
           (product_quantity product_record) (product_price product_record)
           (Dict.date_updated record)
       else product_record in
     Product_save product_record).

(** The body of the [for] loop of [load_data_from_csv]. A price cell that
    is [None] makes ['.' in pricestr] a [TypeError]. *)
Definition load_row (product : Csv.row) : M unit :=
  price <- match Csv.product_price product with
           | Some s => lift (format_price_str_to_int s)
           | None => raise TypeError
           end ;;
  date <- format_date_str_to_datetime (Csv.date_updated product) ;;
  add_record_to_db
    (Dict.mk (Csv.product_name product) (str_or_none (Csv.product_quantity product))
       (PInt price) date).

Fixpoint for_each {A} (body : A -> M unit) (l : list A) : M unit :=
  match l with
  | [] => ret tt
  | x :: r => body x ;; for_each body r
  end.

(** [open('./inventory.csv')] and the reader over it. *)
Definition open_inventory_csv : M (list Csv.row) :=
  fun w =>
    match inventory_csv w with
    | Some rows => (Return rows, w)
    | None => (Raise FileNotFoundError, w)
    end.

Definition load_data_from_csv : M unit :=
  try_except
    (product_list <- open_inventory_csv ;;
     for_each load_row product_list)
    is_FileNotFoundError
    (print "inventory.csv file not found, no current data loaded to database").

(** [db.connect()] and [db.create_tables([Product], safe=True)] leave the
    rows of the table as they are. *)
Definition initialize : M unit :=
  load_data_from_csv.

(** [re.search('\$?\.?\d+', s)]. An optional character is first taken,
    then skipped. *)
Module Re.

Definition optional (c : ascii) (s : string) : list string :=
  match s with
  | String d r => if Ascii.eqb d c then [r; s] else [s]
  | EmptyString => [s]
  end.

Definition starts_with_digit (s : string) : bool :=
  match s with
  | String d _ => Str.is_digit d
  | EmptyString => false
  end.

(** The pattern matches at the start of [s]. *)
Definition price_at (s : string) : bool :=
  existsb (fun s1 => existsb starts_with_digit (optional "." s1)) (optional "$" s).

(** The pattern matches somewhere in [s]. *)
Fixpoint search_price (s : string) : bool :=
  price_at s ||
  match s with
  | String _ r => search_price r
  | EmptyString => false
  end.

End Re.

Definition get_quantity_from_user : M Z :=
  fun w =>
    while_not_valid
      (try_except
         (line <- input "Please enter quantity of product in stock: " ;;
          qty <- lift (py_int line) ;;
          ret (Some qty))
         bare_except
         (print "Quantity needs to be a number, please retry" ;; ret None))
      (stdin w) w.

Definition get_price_from_user : M Z :=
  fun w =>
    while_not_valid
      (pricestr <- input "Please enter product price: " ;;
       if Re.search_price pricestr then
         price <- lift (format_price_str_to_int pricestr) ;;
         ret (Some price)
       else
         print "Invalid price, please retry" ;; ret None)
      (stdin w) w.

Definition get_product_details_from_user : M Dict.t :=
  name <- input "Please enter product name: " ;;
  quantity <- get_quantity_from_user ;;
  price <- get_price_from_user ;;
  now <- datetime_now ;;
  ret (Dict.mk (Some name) (PInt quantity) (PInt price) now).

Definition add_record : M unit :=
  record <- get_product_details_from_user ;;
  add_record_to_db record.

Section Loaded.

(** The defaults left by loading the module. *)
Variable g : defaults.

Definition display_product (product : Product sqlval) : M unit :=
  print ("Product " ++ py_str_int (product_id product) ++ ":  " ++ product_name product) ;;
  print ("Price: " ++ format_price_int_to_str (product_price product)) ;;
  print ("Quantity in stock: " ++ py_str (product_quantity product)) ;;
  print ("Date Last Updated: "
         ++ format_date_datetime_to_str g (Some (date_updated product))) ;;
  _ <- input "Press any key to continue " ;;
  ret tt.

Definition view_product_by_id : M unit :=
  id <- (fun w =>
           while_not_valid
             (try_except
                (line <- input "Enter product id: " ;;
                 id <- lift (py_int line) ;;
                 ret (Some id))
                bare_except
                (print "Product id needs to be a number, please retry" ;; ret None))
             (stdin w) w) ;;
  try_except
    (product <- Product_get_by_id id ;;
     display_product product)
    bare_except
    (print "Sorry, product with this ID not found").

End Loaded.

(** ** Definitions used in the statements *)

Definition march_4_2021 : datetime := mk_datetime 2021 3 4 0 0 0 0.

Definition widget_stored : Product sqlval :=
  mk_Product 1 "Widget" (SInt 10) (SInt 500) march_4_2021.

(** The same name again, with a timestamp three days earlier. *)
Definition widget_again : Dict.t :=
  Dict.mk (Some "Widget") (PInt 20) (PInt 600) (mk_datetime 2021 3 1 0 0 0 0).

Definition world_with (t : list (Product sqlval)) (csv : option (list Csv.row))
    (lines : list string) : world :=
  mk_world t csv lines [] (fun _ => mk_datetime 2022 1 1 12 0 0 0).

Definition two_widgets : list Csv.row :=
  [Csv.mk (Some "Widget") (Some "$5.00") (Some "10") (Some "3/4/2021");
   Csv.mk (Some "Widget") (Some "$6.00") (Some "20") (Some "3/1/2021")].

Fixpoint has_digit (s : string) : bool :=
  match s with
  | EmptyString => false
  | String c r => Str.is_digit c || has_digit r
  end.

Definition never_raises {A} (m : M A) : Prop :=
  forall w e, fst (m w) <> Raise e.

(** The row with key [id], if there is one. A key that is no SQLite integer
    belongs to no row. *)
Definition row_with_id (id : Z) (t : list (Product sqlval)) : option (Product sqlval) :=
  match sqlite_int id with
  | Return _ => find (fun p => product_id p =? id) t
  | _ => None
  end.

(** What [display_product] prints for a row, before it asks for a key. *)
Definition shown (g : defaults) (p : Product sqlval) : list string :=
  ["Product " ++ py_str_int (product_id p) ++ ":  " ++ product_name p;
   "Price: " ++ format_price_int_to_str (product_price p);
   "Quantity in stock: " ++ py_str (product_quantity p);
   "Date Last Updated: " ++ format_date_datetime_to_str g (Some (date_updated p))].

(** ** The backup and the menu *)

(** [s.lower()] on code points below 256: the capital letters of ASCII and
    of Latin-1 move up by 32. *)
Definition lower_char (c : ascii) : ascii :=
  let n := Str.code c in
  if ((65 <=? n) && (n <=? 90)) || ((192 <=? n) && (n <=? 214))
     || ((216 <=? n) && (n <=? 222))
  then ascii_of_N (Z.to_N (n + 32))
  else c.

Fixpoint py_lower (s : string) : string :=
  match s with
  | EmptyString => EmptyString
  | String c r => String (lower_char c) (py_lower r)
  end.

(** The blanks of [s.strip()]: those of [int] and the four separators
    U+001C to U+001F. *)
Definition is_blank (c : ascii) : bool :=
  let n := Str.code c in
  is_space c || ((28 <=? n) && (n <=? 31)).

Fixpoint lstrip (s : string) : string :=
  match s with
  | String c r => if is_blank c then lstrip r else s
  | EmptyString => s
  end.

Fixpoint rstrip (s : string) : string :=
  match s with
  | EmptyString => EmptyString
  | String c r =>
      match rstrip r with
      | EmptyString => if is_blank c then EmptyString else String c EmptyString
      | r' => String c r'
      end
  end.

Definition py_strip (s : string) : string := rstrip (lstrip s).

Definition newline : string := String (ascii_of_nat 10) EmptyString.

(** The state of the process together with the text of [backup.csv], if
    that file exists. *)
Definition session : Type := world * option string.

Definition Run (A : Type) : Type := session -> outcome A * session.

Definition Run_ret {A} (a : A) : Run A := fun s => (Return a, s).

Definition Run_bind {A B} (m : Run A) (k : A -> Run B) : Run B :=
  fun s =>
    match m s with
    | (Return a, s') => k a s'
    | (Raise e, s') => (Raise e, s')
    | (Hang, s') => (Hang, s')
    end.

(** Code that does not touch the backup file. *)
Definition in_world {A} (m : M A) : Run A :=
  fun s => let (r, w') := m (fst s) in (r, (w', snd s)).

(** The line that [backup_db_to_csv] writes for a product. *)
Definition product_row (g : defaults) (product : Product sqlval) : string :=
  (py_str_int (product_id product) ++ "," ++ product_name product ++ ","
   ++ format_price_int_to_str (product_price product) ++ ",")
  ++ (py_str (product_quantity product) ++ ","
      ++ format_date_datetime_to_str g (Some (date_updated product)) ++ newline).

(** [Product.select()] gives the rows in the order of the table. Opening
    the file for writing empties it; every [write] adds to its end.
    (A file that cannot be opened is not modelled.) *)
Definition backup_db_to_csv (g : defaults) : Run unit :=
  fun s =>
    let products := table (fst s) in
    let f := fold_left (fun written product => written ++ product_row g product)
               products EmptyString in
    (Return tt, (fst s, Some f)).

(** The ordered dict [menu]: key, docstring of the function, function. *)
Definition menu (g : defaults) : list (string * (string * Run unit)) :=
  [("a", (" Add a new product to the database ", in_world add_record));
   ("v", (" View a single product's inventory ", in_world (view_product_by_id g)));
   ("b", (" Make a backup of the entire inventory  ", backup_db_to_csv g))].

(** [menu[choice]], if [choice in menu]. *)
Definition menu_get (g : defaults) (choice : string) : option (Run unit) :=
  match find (fun item => String.eqb (fst item) choice) (menu g) with
  | Some item => Some (snd (snd item))
  | None => None
  end.

(** What a round of the loop does before it looks at the choice: the menu
    is printed and a line is read, put in lower case and stripped. *)
Definition ask_action (g : defaults) : M string :=
  print "Enter q to quit." ;;
  for_each (fun item => print (fst item ++ ") " ++ fst (snd item))) (menu g) ;;
  line <- input "Action: " ;;
  ret (py_strip (py_lower line)).

(** [while choice != 'q':]. Every round reads a line, so the rounds are at
    most as many as [lines], the input unread when the loop is entered,
    has lines, and one more: the last case is never reached. *)
Fixpoint menu_loop (g : defaults) (lines : list string) : Run unit :=
  Run_bind (in_world (ask_action g)) (fun choice =>
  Run_bind (match menu_get g choice with
          | Some action => action
          | None => Run_ret tt
          end) (fun _ =>
  if String.eqb choice "q" then Run_ret tt
  else
    match lines with
    | _ :: rest => menu_loop g rest
    | [] => fun s => (Hang, s)
    end)).

(** The block under [if __name__ == '__main__':]. *)
Definition main (g : defaults) : Run unit :=
  Run_bind (in_world initialize) (fun _ s => menu_loop g (stdin (fst s)) s).

(** What a round of the menu prints. *)
Definition menu_shown : list string :=
  ["Enter q to quit.";
   "a)  Add a new product to the database ";
   "v)  View a single product's inventory ";
   "b)  Make a backup of the entire inventory  ";
   "Action: "].

(** The choice that a typed line stands for. *)
Definition choice_of (line : string) : string := py_strip (py_lower line).

Definition unknown_choice (line : string) : Prop :=
  choice_of line <> "a" /\ choice_of line <> "v" /\ choice_of line <> "b"
  /\ choice_of line <> "q".

(** ** Definitions used in the further properties *)

(** Every run of [m] takes a state to one related to it by [R]. *)
Definition respects (R : world -> world -> Prop) {A} (m : M A) : Prop :=
  forall w, R w (snd (m w)).

(** From [w] to [w'] only the console has moved: output was added, input
    was used up. *)
Definition console_only (w w' : world) : Prop :=
  table w' = table w /\ inventory_csv w' = inventory_csv w /\ clock w' = clock w
  /\ (exists out, stdout w' = (stdout w ++ out)%list)
  /\ (exists used, stdin w = (used ++ stdin w')%list).

Definition keys (t : list (Product sqlval)) : list Z := map product_id t.

(** From [w] to [w'] rows satisfying [P] were added to the table, after the
    rows there, which are as before; the seed file is as before, and keys
    that were distinct still are. *)
Definition appended (P : Product sqlval -> Prop) (w w' : world) : Prop :=
  inventory_csv w' = inventory_csv w
  /\ exists added,
       table w' = (table w ++ added)%list
       /\ Forall P added
       /\ (NoDup (keys (table w)) -> NoDup (keys (table w'))).

(** The price of a row is an integer, not text. *)
Definition price_is_int (p : Product sqlval) : Prop :=
  exists z, product_price p = SInt z.

(** One pass of a prompt for an integer. *)
Definition int_prompt (prompt msg : string) : M (option Z) :=
  try_except
    (line <- input prompt ;;
     n <- lift (py_int line) ;;
     ret (Some n))
    bare_except
    (print msg ;; ret None).

(** One pass of the prompt for a price. *)
Definition price_prompt : M (option Z) :=
  pricestr <- input "Please enter product price: " ;;
  if Re.search_price pricestr then
    price <- lift (format_price_str_to_int pricestr) ;;
    ret (Some price)
  else
    print "Invalid price, please retry" ;; ret None.

(** What the console shows for the lines [bad] that a prompt refuses. *)
Definition refusals (prompt msg : string) (bad : list string) : list string :=
  flat_map (fun _ => [prompt; msg]) bad.

Definition in_sqlite_range (z : Z) : Prop := - 2 ^ 63 <= z < 2 ^ 63.

(** The state [w] once the console has written [out] and is left with the
    input [rest]. *)
Definition console_at (w : world) (rest out : list string) : world :=
  mk_world (table w) (inventory_csv w) rest (stdout w ++ out) (clock w).

(** The line [r] of the seed file reads as the name [n], the quantity [q],
    the price [p] in cents and the date [d]. Its quantity cell is a text
    that [int] accepts: what the table holds for any other text is left to
    SQLite and is not stated. *)
Definition loads_as (r : Csv.row) (n : string) (q : Z) (p : Z) (d : datetime) : Prop :=
  Csv.product_name r = Some n
  /\ (exists s, Csv.product_price r = Some s /\ format_price_str_to_int s = Return p)
  /\ in_sqlite_range p
  /\ (exists s, Csv.product_quantity r = Some s /\ py_int s = Return q)
  /\ in_sqlite_range q
  /\ (exists s, Csv.date_updated r = Some s /\ s <> "" /\ strptime_mdY s = Return d).

Definition well_formed_line (r : Csv.row) : Prop :=
  exists n q p d, loads_as r n q p d.

(** The row [row] holds what the line [r] reads as. *)
Definition stored_line (r : Csv.row) (row : Product sqlval) : Prop :=
  exists q p,
    product_quantity row = SInt q /\ product_price row = SInt p
    /\ loads_as r (product_name row) q p (date_updated row).

(** The price or the date of the line [r] is refused by its decoder. *)
Definition malformed_line (r : Csv.row) : Prop :=
  exists s, Csv.product_price r = Some s
    /\ (format_price_str_to_int s = Raise ValueError
        \/ ((exists p, format_price_str_to_int s = Return p)
            /\ exists t, Csv.date_updated r = Some t /\ t <> ""
                         /\ strptime_mdY t = Raise ValueError)).

(** The lines [l] one after another. *)
Definition joined (l : list string) : string := fold_right String.append EmptyString l.

(** From [w] to [w'] input was only used up. *)
Definition input_used (w w' : world) : Prop :=
  exists used, stdin w = (used ++ stdin w')%list.

(** The year [y], as it is written, is read back as [y]. *)
Definition year_read_back (y : Z) : bool :=
  match Strptime.directive_Y (py_str_int y) with
  | [(y', EmptyString)] => y' =? y
  | _ => false
  end.

(** * Properties *)

(** ** Strings and numerals *)

Lemma digit_of_digit (d : Z) : 0 <= d < 10 -> Str.digit (Str.of_digit d) = Some d.
Proof.
  intros H.
  assert (d = 0 \/ d = 1 \/ d = 2 \/ d = 3 \/ d = 4 \/ d = 5 \/ d = 6
          \/ d = 7 \/ d = 8 \/ d = 9) as C by lia.
  repeat (destruct C as [-> | C]; [reflexivity |]); subst; reflexivity.
Qed.

(** A digit is no blank, no sign, no underscore, no dollar and no point. *)
Lemma digit_plain (c : ascii) (d : Z) :
  Str.digit c = Some d ->
  is_space c = false /\ Ascii.eqb c "+" = false /\ Ascii.eqb c "-" = false
  /\ Ascii.eqb c "_" = false /\ is_dollar_or_dot c = false /\ is_dollar c = false.
Proof.
  destruct c as [[] [] [] [] [] [] [] []]; cbv; intros H;
    try discriminate H; repeat split; reflexivity.
Qed.

Lemma append_assoc (a b c : string) : (a ++ b) ++ c = a ++ (b ++ c).
Proof. induction a as [| x a IH]; simpl; [reflexivity | now rewrite IH]. Qed.

Lemma all_digits_app (a b : string) :
  Str.all_digits (a ++ b) = Str.all_digits a && Str.all_digits b.
Proof.
  induction a as [| x a IH]; simpl; [reflexivity |].
  now rewrite IH, andb_assoc.
Qed.

Lemma remove_app (cls : ascii -> bool) (a b : string) :
  Str.remove cls (a ++ b) = Str.remove cls a ++ Str.remove cls b.
Proof.
  induction a as [| x a IH]; simpl; [reflexivity |].
  destruct (cls x); simpl; now rewrite IH.
Qed.

Lemma remove_digits (cls : ascii -> bool) (s : string) :
  (forall c d, Str.digit c = Some d -> cls c = false) ->
  Str.all_digits s = true -> Str.remove cls s = s.
Proof.
  intros Hcls. induction s as [| c s IH]; simpl; [reflexivity |].
  unfold Str.is_digit. destruct (Str.digit c) as [d |] eqn:E; [| discriminate].
  simpl. intros H. rewrite (Hcls c d E), (IH H). reflexivity.
Qed.

Lemma contains_app_char (c : ascii) (a b : string) :
  Str.contains c (a ++ String c b) = true.
Proof.
  induction a as [| x a IH]; simpl.
  - now rewrite Ascii.eqb_refl.
  - rewrite IH. apply orb_true_r.
Qed.

Lemma contains_digits (c : ascii) (s : string) :
  Str.is_digit c = false -> Str.all_digits s = true -> Str.contains c s = false.
Proof.
  intros Hc. induction s as [| x s IH]; simpl; [reflexivity |].
  intros H. apply andb_true_iff in H as [Hx Hs].
  rewrite (IH Hs), orb_false_r.
  destruct (Ascii.eqb_spec x c) as [-> |]; [congruence | reflexivity].
Qed.

Lemma take_drop (n : nat) (s : string) : Str.take n s ++ Str.drop n s = s.
Proof.
  revert s. induction n as [| n IH]; intros [| c s]; simpl; try reflexivity.
  now rewrite IH.
Qed.

Lemma digits_value_app (acc : Z) (a b : string) :
  Str.digits_value acc (a ++ b) = Str.digits_value (Str.digits_value acc a) b.
Proof.
  revert acc. induction a as [| x a IH]; intros acc; simpl; [reflexivity | apply IH].
Qed.

(** On a run of digits [int_body] reads to the end. *)
Lemma int_body_digits (s : string) (acc : Z) (after_digit : bool) :
  Str.all_digits s = true ->
  after_digit = true \/ s <> "" ->
  int_body acc after_digit s = Some (Str.digits_value acc s, "").
Proof.
  revert acc after_digit. induction s as [| c s IH]; intros acc b Hd Hb; simpl.
  - destruct Hb as [-> | Hb]; [reflexivity | congruence].
  - simpl in Hd. unfold Str.is_digit in Hd.
    destruct (Str.digit c) as [d |]; [| discriminate].
    apply IH; [exact Hd | now left].
Qed.

(** [int] of a run of digits is its decimal value. *)
Lemma py_int_digits (s : string) :
  Str.all_digits s = true -> s <> "" -> py_int s = Return (Str.digits_value 0 s).
Proof.
  intros Hd Hne. destruct s as [| c s]; [congruence |].
  pose proof Hd as Hd'. simpl in Hd'. unfold Str.is_digit in Hd'.
  destruct (Str.digit c) as [d |] eqn:E; [| discriminate].
  destruct (digit_plain c d E) as (Hsp & Hplus & Hminus & _).
  unfold py_int. simpl skip_spaces. rewrite Hsp.
  assert (match String c s with
          | String "+" r => (1, r)
          | String "-" r => (-1, r)
          | _ => (1, String c s)
          end = (1, String c s)) as ->.
  { destruct (Ascii.eqb_spec c "+") as [-> |]; [discriminate |].
    destruct (Ascii.eqb_spec c "-") as [-> |]; [discriminate |].
    destruct c as [[] [] [] [] [] [] [] []]; try reflexivity; congruence. }
  rewrite (int_body_digits (String c s) 0 false Hd); [| now right].
  now rewrite Z.mul_1_l.
Qed.

Lemma digits_loop_all_digits (fuel : nat) (n : Z) (acc : string) :
  Str.all_digits (digits_loop fuel n acc) = Str.all_digits acc.
Proof.
  revert n acc. induction fuel as [| f IH]; intros n acc; simpl; [reflexivity |].
  assert (Str.is_digit (Str.of_digit (n mod 10)) = true) as Hd.
  { unfold Str.is_digit. rewrite digit_of_digit; [reflexivity |].
    apply Z.mod_pos_bound. lia. }
  destruct (n <? 10); [| rewrite IH]; simpl; now rewrite Hd.
Qed.

Lemma digits_loop_value (fuel : nat) (n : Z) (acc : string) :
  0 <= n < 2 ^ Z.of_nat fuel ->
  Str.digits_value 0 (digits_loop fuel n acc) = Str.digits_value n acc.
Proof.
  revert n acc. induction fuel as [| f IH]; intros n acc Hn.
  - simpl in *. replace n with 0 by lia. reflexivity.
  - simpl digits_loop.
    assert (0 <= n mod 10 < 10) as Hm by (apply Z.mod_pos_bound; lia).
    destruct (Z.ltb_spec n 10) as [Hlt | Hge].
    + cbn [Str.digits_value]. rewrite digit_of_digit by exact Hm.
      rewrite Z.mod_small by lia. reflexivity.
    + rewrite IH.
      * cbn [Str.digits_value]. rewrite digit_of_digit by exact Hm.
        f_equal. pose proof (Z.div_mod n 10 ltac:(lia)). lia.
      * rewrite Nat2Z.inj_succ, Z.pow_succ_r in Hn by lia.
        split; [apply Z.div_pos; lia |].
        apply Z.div_lt_upper_bound; lia.
Qed.

Lemma str_nonneg_all_digits (n : Z) : Str.all_digits (str_nonneg n) = true.
Proof. unfold str_nonneg. now rewrite digits_loop_all_digits. Qed.

Lemma digits_loop_length (fuel : nat) (n : Z) (acc : string) :
  (String.length acc <= String.length (digits_loop fuel n acc))%nat.
Proof.
  revert n acc. induction fuel as [| f IH]; intros n acc; simpl; [lia |].
  destruct (n <? 10); [simpl; lia |].
  etransitivity; [| apply IH]. simpl. lia.
Qed.

Lemma str_nonneg_not_empty (n : Z) : str_nonneg n <> "".
Proof.
  unfold str_nonneg. intros H.
  pose proof (digits_loop_length (Z.to_nat (Z.log2 n)) (n / 10)
                (String (Str.of_digit (n mod 10)) "")) as L.
  simpl in H. destruct (n <? 10); [discriminate |].
  rewrite H in L. simpl in L. lia.
Qed.

Lemma str_nonneg_value (n : Z) : 0 <= n -> Str.digits_value 0 (str_nonneg n) = n.
Proof.
  intros Hn. unfold str_nonneg. rewrite digits_loop_value; [reflexivity |].
  split; [exact Hn |].
  destruct (Z.eq_dec n 0) as [-> | Hz]; [reflexivity |].
  rewrite Nat2Z.inj_succ, Z2Nat.id by apply Z.log2_nonneg.
  apply Z.log2_spec. lia.
Qed.

(** ** The price codec *)

(** Decoding a text with a point: the digits left once [$] and [.] are
    gone are the cents. *)
Lemma decode_with_point (s : string) :
  Str.contains "." s = true ->
  Str.all_digits (Str.remove is_dollar_or_dot s) = true ->
  Str.remove is_dollar_or_dot s <> "" ->
  format_price_str_to_int s = Return (Str.digits_value 0 (Str.remove is_dollar_or_dot s)).
Proof.
  intros Hp Hd Hne. unfold format_price_str_to_int. rewrite Hp.
  now apply py_int_digits.
Qed.

(** Decoding a text without a point: the digits left once [$] is gone are
    whole units, a hundred cents each. *)
Lemma decode_without_point (s : string) :
  Str.contains "." s = false ->
  Str.all_digits (Str.remove is_dollar s) = true ->
  Str.remove is_dollar s <> "" ->
  format_price_str_to_int s = Return (Str.digits_value 0 (Str.remove is_dollar s) * 100).
Proof.
  intros Hp Hd Hne. unfold format_price_str_to_int. rewrite Hp.
  now rewrite py_int_digits.
Qed.

(** A dollar sign, digits, a point, digits: decoded to the value of all
    the digits. *)
Lemma decode_dollar_point (a b : string) :
  Str.all_digits a = true -> Str.all_digits b = true -> a ++ b <> "" ->
  format_price_str_to_int ("$" ++ a ++ "." ++ b) = Return (Str.digits_value 0 (a ++ b)).
Proof.
  intros Ha Hb Hne.
  assert (Str.remove is_dollar_or_dot ("$" ++ a ++ "." ++ b) = a ++ b) as E.
  { change ("$" ++ a ++ "." ++ b) with (String "$" (a ++ String "." b)).
    simpl. rewrite remove_app. simpl.
    rewrite !remove_digits; try assumption; reflexivity || (intros c d H; apply (digit_plain c d H)). }
  rewrite decode_with_point; rewrite ?E; try assumption.
  - reflexivity.
  - change ("$" ++ a ++ "." ++ b) with (String "$" (a ++ String "." b)).
    simpl. apply contains_app_char.
  - rewrite all_digits_app, Ha, Hb. reflexivity.
Qed.

Lemma encode_nonneg (c : Z) :
  0 <= c ->
  exists a b, format_price_int_to_str (SInt c) = "$" ++ a ++ "." ++ b
    /\ Str.all_digits a = true /\ Str.all_digits b = true
    /\ a ++ b <> "" /\ Str.digits_value 0 (a ++ b) = c.
Proof.
  intros Hc. unfold format_price_int_to_str, py_str, py_str_int.
  destruct (Z.ltb_spec c 0) as [| _]; [lia |].
  pose proof (str_nonneg_all_digits c) as Hd.
  pose proof (str_nonneg_not_empty c) as Hne.
  pose proof (str_nonneg_value c Hc) as Hv.
  set (s := str_nonneg c) in *.
  destruct (Z.eqb_spec (Str.len s) 1) as [L1 | L1];
    [| destruct (Z.eqb_spec (Str.len s) 2) as [L2 | L2]].
  - exists "0", ("0" ++ s). repeat split; auto; discriminate.
  - exists "0", s. repeat split; auto; discriminate.
  - assert (3 <= Str.len s) as L3.
    { unfold Str.len in *. destruct s as [| x [| y [| z s']]]; simpl in *; try congruence; lia. }
    assert (Str.bound (-2) (Str.len s) = Str.bound (Str.len s - 2) (Str.len s)) as B.
    { unfold Str.bound. destruct (Z.ltb_spec (Str.len s - 2) 0); [lia |].
      change (-2 <? 0) with true. cbv iota.
      now replace (-2 + Str.len s) with (Str.len s - 2) by lia. }
    unfold Str.slice_to, Str.slice_from. rewrite B.
    set (k := Str.bound (Str.len s - 2) (Str.len s)).
    pose proof (take_drop k s) as TD.
    exists (Str.take k s), (Str.drop k s).
    rewrite TD. repeat split; auto.
    + rewrite <- TD, all_digits_app in Hd. now apply andb_true_iff in Hd.
    + rewrite <- TD, all_digits_app in Hd. now apply andb_true_iff in Hd.
Qed.

(** C4. For every number of cents [c] from 0 to 99999, decoding the encoded
    price gives [c] back:
    [format_price_str_to_int (format_price_int_to_str c) = c]. *)
Theorem price_round_trip (c : Z) :
  0 <= c <= 99999 ->
  format_price_str_to_int (format_price_int_to_str (SInt c)) = Return c.
Proof.
  intros [Hc _].
  destruct (encode_nonneg c Hc) as (a & b & -> & Ha & Hb & Hne & Hv).
  rewrite decode_dollar_point by assumption. now rewrite Hv.
Qed.

Lemma price_round_trip_witness :
  0 <= 1250 <= 99999
  /\ format_price_str_to_int (format_price_int_to_str (SInt 1250)) = Return 1250.
Proof. split; [lia | apply (price_round_trip 1250); lia]. Defined.

Example decode_12_50 : format_price_str_to_int "$12.50" = Return 1250.
Proof. reflexivity. Qed.

Example decode_12_5 : format_price_str_to_int "$12.5" = Return 125.
Proof. reflexivity. Qed.

Example decode_7 : format_price_str_to_int "$7" = Return 700.
Proof. reflexivity. Qed.

Example encode_5 : format_price_int_to_str (SInt 5) = "$0.05".
Proof. reflexivity. Qed.

Example encode_150 : format_price_int_to_str (SInt 150) = "$1.50".
Proof. reflexivity. Qed.

(** C5. [format_price_str_to_int] is claimed to fail whenever the text left
    after stripping is not purely numeric. It does not: the text [-5] has no
    [$] to strip and is not a run of digits, yet it is decoded, to minus 500
    cents. (With a point, [-5.00] gives the same.) *)
Theorem decode_accepts_a_sign :
  Str.contains "." "-5" = false
  /\ Str.all_digits (Str.remove is_dollar "-5") = false
  /\ format_price_str_to_int "-5" = Return (-500)
  /\ format_price_str_to_int "-5.00" = Return (-500).
Proof. repeat split. Qed.

(** Blanks around the digits and an underscore between them pass too. *)
Example decode_blanks_underscore : format_price_str_to_int " 1_0 " = Return 1000.
Proof. reflexivity. Qed.

(** ** The date codec *)

(** C6. [format_date_str_to_datetime "3/4/2021"] is March 4, 2021 at 00:00,
    as claimed; but [format_date_datetime_to_str] of that timestamp is
    [03/04/2021], month and day padded with a zero, and not [3/4/2021]. *)
Theorem date_encoding_is_zero_padded (g : defaults) (w : world) :
  format_date_str_to_datetime (Some "3/4/2021") w = (Return march_4_2021, w)
  /\ format_date_datetime_to_str g (Some march_4_2021) = "03/04/2021"
  /\ format_date_datetime_to_str g (Some march_4_2021) <> "3/4/2021".
Proof. repeat split. discriminate. Qed.

(** The padded form is read back to the same timestamp. *)
Example decode_padded_date (w : world) :
  format_date_str_to_datetime (Some "03/04/2021") w = (Return march_4_2021, w).
Proof. reflexivity. Qed.

(** C10. The default of [format_date_datetime_to_str] is the clock reading
    taken when the module is loaded: a call without argument formats that
    reading, whatever the clock shows when the call is made. *)
Theorem default_date_fixed_at_load (w : world) :
  exists g, fst (load_module w) = Return g
    /\ format_date_datetime_to_str g None = strftime_mdY (clock w O)
    /\ format_date_datetime_to_str g None = format_date_datetime_to_str g (Some (clock w O)).
Proof. exists (mk_defaults (clock w O)). repeat split. Qed.

(** By contrast [format_date_str_to_datetime] without a text reads the
    clock when it is called. *)
Lemma decode_date_default_reads_clock (w : world) :
  fst (format_date_str_to_datetime None w) = Return (clock w O).
Proof. reflexivity. Qed.

(** A run that loads on March 4, 2021 and calls the encoder without
    argument on January 1, 2022 gets March 4, 2021. *)
Example default_date_stale :
  let w := mk_world [] None [] []
             (fun n => match n with
                       | O => march_4_2021
                       | _ => mk_datetime 2022 1 1 0 0 0 0
                       end) in
  match load_module w with
  | (Return g, w1) =>
      clock w1 O = mk_datetime 2022 1 1 0 0 0 0
      /\ format_date_datetime_to_str g None = "03/04/2021"
  | _ => False
  end.
Proof. simpl. split; reflexivity. Qed.

(** ** Adding a record *)

(** No column of the table but the key is UNIQUE, so no name is ever
    refused: a record with a name, an integer quantity and an integer price
    (within SQLite's range) is inserted as a new row, whatever the table
    holds. *)
Lemma add_record_to_db_inserts (w : world) (n : string) (q p : Z) (d : datetime) :
  - 2 ^ 63 <= q < 2 ^ 63 -> - 2 ^ 63 <= p < 2 ^ 63 ->
  add_record_to_db (Dict.mk (Some n) (PInt q) (PInt p) d) w
  = (Return tt,
     set_table (table w ++ [mk_Product (next_id (table w)) n (SInt q) (SInt p) d]) w).
Proof.
  intros Hq Hp.
  unfold add_record_to_db, try_except, Product_create, bind, lift. simpl.
  unfold sqlite_int.
  destruct (Z.leb_spec (- 2 ^ 63) q); [| lia].
  destruct (Z.ltb_spec q (2 ^ 63)); [| lia].
  destruct (Z.leb_spec (- 2 ^ 63) p); [| lia].
  destruct (Z.ltb_spec p (2 ^ 63)); [| lia].
  reflexivity.
Qed.

(** C1. Adding a record whose name is already in the table is claimed to
    update the stored row and to create none. Here the table holds
    [Widget] (quantity 10, price 500, March 4) and [Widget] is added again
    with quantity 20, price 600 and March 1: the stored row is left as it
    was and a second row, with key 2, is created. *)
Theorem add_record_to_db_same_name_adds_a_row :
  let w := world_with [widget_stored] None [] in
  fst (add_record_to_db widget_again w) = Return tt
  /\ table (snd (add_record_to_db widget_again w))
     = [widget_stored;
        mk_Product 2 "Widget" (SInt 20) (SInt 600) (mk_datetime 2021 3 1 0 0 0 0)].
Proof. split; reflexivity. Qed.

(** When no row has the name, the record is stored under a fresh key. *)
Example add_record_to_db_new_name :
  let w := world_with [] None [] in
  table (snd (add_record_to_db
                (Dict.mk (Some "Widget") (PInt 10) (PInt 500) march_4_2021) w))
  = [widget_stored].
Proof. reflexivity. Qed.

(** The handler runs only when the INSERT fails on a NULL. If it then finds
    a row of that name, the two tuples it has assigned make [save] raise
    [TypeError], and the table is left as it was. *)
Lemma add_record_to_db_handler_fails (w : world) (record : Dict.t) (row : Product sqlval) :
  fst (Product_create (Dict.product_name record) (Dict.product_quantity record)
         (Dict.product_price record) (Dict.date_updated record) w) = Raise IntegrityError ->
  find (name_is (Dict.product_name record)) (table w) = Some row ->
  add_record_to_db record w = (Raise TypeError, w).
Proof.
  intros Hc Hf. unfold add_record_to_db, try_except, bind at 1.
  destruct (Product_create _ _ _ _ w) as [r w1] eqn:E. simpl in Hc. subst r.
  assert (w1 = w) as ->.
  { revert E. unfold Product_create, bind, lift.
    destruct (IntegerField_db_value (Dict.product_quantity record)); try congruence.
    destruct (IntegerField_db_value (Dict.product_price record)); try congruence.
    destruct (violates _ _ _ || _ || _ || _); [congruence |].
    destruct (Dict.product_name record), a, a0; congruence. }
  simpl. unfold bind, Product_get. rewrite Hf.
  destruct (datetime_gt _ _); reflexivity.
Qed.

Example short_csv_line_fails :
  let w := world_with [widget_stored]
             (Some [Csv.mk (Some "Widget") (Some "$6.00") None None]) [] in
  fst (load_data_from_csv w) = Raise TypeError
  /\ table (snd (load_data_from_csv w)) = [widget_stored].
Proof. split; reflexivity. Qed.

(** ** The import *)

(** C2. A seed file with two lines of the same name, imported into an empty
    table, is claimed to leave one row. It leaves two: the second line is
    inserted under key 2. *)
Theorem import_same_name_twice_stores_two_rows :
  let w := world_with [] (Some two_widgets) [] in
  fst (load_data_from_csv w) = Return tt
  /\ table (snd (load_data_from_csv w))
     = [widget_stored;
        mk_Product 2 "Widget" (SInt 20) (SInt 600) (mk_datetime 2021 3 1 0 0 0 0)]
  /\ List.length (filter (name_is (Some "Widget")) (table (snd (load_data_from_csv w)))) = 2%nat.
Proof. repeat split. Qed.

(** C9. When [inventory.csv] does not exist, [load_data_from_csv] prints a
    notice and returns normally; the table is left as it was, and so does
    [initialize]. *)
Theorem load_data_from_csv_without_file (w : world) :
  inventory_csv w = None ->
  load_data_from_csv w
  = (Return tt,
     set_stdout (stdout w
                 ++ ["inventory.csv file not found, no current data loaded to database"]) w)
  /\ table (snd (load_data_from_csv w)) = table w
  /\ fst (initialize w) = Return tt
  /\ table (snd (initialize w)) = table w.
Proof.
  intros H. unfold initialize.
  assert (load_data_from_csv w
          = (Return tt,
             set_stdout (stdout w
               ++ ["inventory.csv file not found, no current data loaded to database"]) w)) as E.
  { unfold load_data_from_csv, try_except, bind, open_inventory_csv. now rewrite H. }
  rewrite E. repeat split.
Qed.

Lemma load_data_from_csv_without_file_witness :
  let w := world_with [widget_stored] None [] in
  load_data_from_csv w
  = (Return tt,
     set_stdout (stdout w
                 ++ ["inventory.csv file not found, no current data loaded to database"]) w)
  /\ table (snd (load_data_from_csv w)) = table w
  /\ fst (initialize w) = Return tt
  /\ table (snd (initialize w)) = table w.
Proof.
  apply (load_data_from_csv_without_file (world_with [widget_stored] None [])).
  reflexivity.
Defined.

(** ** The prompts *)

(** The price pattern is searched for, not matched against the whole line:
    it is found in exactly the lines that hold a digit somewhere. *)
Lemma search_price_iff_has_digit (s : string) : Re.search_price s = has_digit s.
Proof.
  induction s as [| c r IH]; [reflexivity |].
  cbn [Re.search_price has_digit]. rewrite IH.
  destruct (Str.is_digit c) eqn:Ec.
  - assert (Re.price_at (String c r) = true) as ->; [| reflexivity].
    unfold Str.is_digit in Ec. destruct (Str.digit c) as [d |] eqn:Ed; [| discriminate].
    destruct (digit_plain c d Ed) as (_ & _ & _ & _ & Hdd & Hdol).
    unfold is_dollar_or_dot in Hdd. apply orb_false_iff in Hdd as [H1 H2].
    unfold Re.price_at, Re.optional. rewrite H1. cbn [existsb]. rewrite H2.
    cbn [existsb Re.starts_with_digit]. unfold Str.is_digit. now rewrite Ed.
  - destruct (has_digit r) eqn:Er; [apply orb_true_r |].
    rewrite orb_false_r. cbn [orb].
    unfold Re.price_at, Re.optional.
    assert (forall t, has_digit t = false -> Re.starts_with_digit t = false) as Hs.
    { intros [| x t]; simpl; [reflexivity |]. intros H. now apply orb_false_iff in H. }
    assert (forall t, has_digit t = false ->
              existsb Re.starts_with_digit
                match t with
                | String d r0 => if Ascii.eqb d "." then [r0; t] else [t]
                | EmptyString => [t]
                end = false) as Hopt.
    { intros [| x t] Ht; cbn [existsb]; [now rewrite (Hs _ Ht) |].
      pose proof Ht as Ht'. simpl in Ht'. apply orb_false_iff in Ht' as [_ Ht'].
      destruct (Ascii.eqb x "."); cbn [existsb]; now rewrite ?(Hs _ Ht), ?(Hs _ Ht'). }
    assert (has_digit (String c r) = false) as Hcr by (simpl; now rewrite Ec, Er).
    destruct (Ascii.eqb c "$"); cbn [existsb]; now rewrite ?(Hopt _ Er), ?(Hopt _ Hcr).
Qed.

(** C7. No line typed at the price prompt is claimed to make
    [get_price_from_user] raise. The line [1a] does: it holds a digit, so
    the pattern is found and the line is handed to the decoder, whose
    [ValueError] nothing catches. *)
Theorem get_price_from_user_raises :
  let w := world_with [] None ["1a"] in
  Re.search_price "1a" = true
  /\ format_price_str_to_int "1a" = Raise ValueError
  /\ fst (get_price_from_user w) = Raise ValueError.
Proof. repeat split. Qed.

(** The quantity prompt, next to it, answers the same line with its
    message and asks again. *)
Example get_quantity_from_user_retries :
  let w := world_with [] None ["1a"; "3"] in
  fst (get_quantity_from_user w) = Return 3
  /\ stdout (snd (get_quantity_from_user w))
     = ["Please enter quantity of product in stock: ";
        "Quantity needs to be a number, please retry";
        "Please enter quantity of product in stock: "].
Proof. split; reflexivity. Qed.

(** A line without any digit is refused and the price is asked again. *)
Example get_price_from_user_retries :
  let w := world_with [] None ["abc"; "$12.50"] in
  fst (get_price_from_user w) = Return 1250
  /\ stdout (snd (get_price_from_user w))
     = ["Please enter product price: "; "Invalid price, please retry";
        "Please enter product price: "].
Proof. split; reflexivity. Qed.

(** C3. The stored price is claimed never to be negative. Adding a product
    at the console with the price line [-5] stores minus 500 cents: the
    line holds a digit, which is all the prompt checks, and the decoder
    accepts the sign. *)
Theorem add_record_stores_negative_price :
  let w := world_with [] None ["Widget"; "1"; "-5"] in
  fst (add_record w) = Return tt
  /\ map product_price (table (snd (add_record w))) = [SInt (-500)].
Proof. split; reflexivity. Qed.

(** The import stores a negative price as well. *)
Example import_stores_negative_price :
  let w := world_with []
             (Some [Csv.mk (Some "Widget") (Some "-5.00") (Some "1") (Some "3/4/2021")]) [] in
  map product_price (table (snd (load_data_from_csv w))) = [SInt (-500)].
Proof. reflexivity. Qed.

(** ** Viewing a product *)

Lemma print_never_raises (s : string) : never_raises (print s).
Proof. intros w e. discriminate. Qed.

Lemma bind_never_raises {A B} (m : M A) (k : A -> M B) :
  never_raises m -> (forall a, never_raises (k a)) -> never_raises (bind m k).
Proof.
  intros Hm Hk w e. unfold bind. specialize (Hm w).
  destruct (m w) as [[a | e' | ] w']; simpl in *.
  - apply Hk.
  - now specialize (Hm e').
  - discriminate.
Qed.

Lemma bare_except_never_raises {A} (body handler : M A) :
  never_raises handler -> never_raises (try_except body bare_except handler).
Proof.
  intros Hh w e. unfold try_except.
  destruct (body w) as [[a | e' | ] w']; simpl; try discriminate. apply Hh.
Qed.

Lemma while_not_valid_never_raises {A} (pass : M (option A)) (lines : list string) :
  never_raises pass -> never_raises (while_not_valid pass lines).
Proof.
  intros Hp. induction lines as [| l lines IH].
  - apply bind_never_raises; [exact Hp |]. intros [a |] w e; discriminate.
  - apply bind_never_raises; [exact Hp |]. intros [a |]; [intros w e; discriminate | exact IH].
Qed.

Ltac run_io :=
  unfold bind, print, input, ret, lift, try_except, bare_except;
  cbn [table inventory_csv stdin stdout clock set_stdout set_stdin set_table fst snd].

(** [display_product] prints the four lines and the prompt, then reads a
    line. *)
Lemma display_product_run (g : defaults) (p : Product sqlval) (w : world) :
  display_product g p w
  = let w' := set_stdout (stdout w ++ shown g p ++ ["Press any key to continue "]) w in
    match stdin w with
    | [] => (Raise EOFError, w')
    | _ :: rest => (Return tt, set_stdin rest w')
    end.
Proof.
  unfold display_product, shown. run_io.
  destruct (stdin w); unfold set_stdout, set_stdin;
    cbn [table inventory_csv stdin stdout clock];
    repeat rewrite <- app_assoc; reflexivity.
Qed.

(** One pass of the id prompt over a line that is an integer. *)
Lemma id_prompt_accepts (w : world) (line : string) (rest : list string) (id : Z) :
  stdin w = line :: rest ->
  py_int line = Return id ->
  try_except
    (line <- input "Enter product id: " ;;
     id <- lift (py_int line) ;;
     ret (Some id))
    bare_except
    (print "Product id needs to be a number, please retry" ;; ret None) w
  = (Return (Some id), set_stdin rest (set_stdout (stdout w ++ ["Enter product id: "]) w)).
Proof. intros Hin Hint. run_io. rewrite Hin. now rewrite Hint. Qed.

(** Once an integer is typed, what is left is the lookup under the bare
    [except]. *)
Lemma view_product_by_id_after_prompt (g : defaults) (w : world)
    (line : string) (rest : list string) (id : Z) :
  stdin w = line :: rest ->
  py_int line = Return id ->
  view_product_by_id g w
  = try_except
      (product <- Product_get_by_id id ;; display_product g product)
      bare_except
      (print "Sorry, product with this ID not found")
      (set_stdin rest (set_stdout (stdout w ++ ["Enter product id: "]) w)).
Proof.
  intros Hin Hint. unfold view_product_by_id. unfold bind at 1. rewrite Hin.
  cbn [while_not_valid]. unfold bind at 1.
  now rewrite (id_prompt_accepts w line rest id Hin Hint).
Qed.

Lemma Product_get_by_id_run (id : Z) (w : world) :
  match row_with_id id (table w) with
  | Some p => Product_get_by_id id w = (Return p, w)
  | None => exists e, Product_get_by_id id w = (Raise e, w)
  end.
Proof.
  unfold row_with_id, Product_get_by_id, Product_get, bind, lift, sqlite_int.
  destruct (_ && _).
  - destruct (find _ (table w)); [reflexivity | now exists DoesNotExist].
  - now exists OverflowError.
Qed.

(** At the end of the input a pass of an integer prompt changes nothing but
    the output and asks for another round: the loop around it goes on for
    ever. *)
Lemma int_prompt_at_end_of_input (prompt msg : string) (w : world) :
  stdin w = [] ->
  try_except
    (line <- input prompt ;;
     n <- lift (py_int line) ;;
     ret (Some n))
    bare_except
    (print msg ;; ret None) w
  = (Return None, set_stdout ((stdout w ++ [prompt]) ++ [msg]) w).
Proof. intros Hin. run_io. now rewrite Hin. Qed.

Example get_quantity_from_user_hangs :
  fst (get_quantity_from_user (world_with [] None ["many"])) = Hang.
Proof. reflexivity. Qed.

(** An id that no row has. *)
Example view_product_by_id_unknown :
  let w := world_with [widget_stored] None ["7"; "next"] in
  view_product_by_id (mk_defaults march_4_2021) w
  = (Return tt,
     mk_world [widget_stored] None ["next"]
       ["Enter product id: "; "Sorry, product with this ID not found"] (clock w)).
Proof. reflexivity. Qed.

(** * Further properties *)

(** ** More on the price codec *)

Lemma length_app (a b : string) :
  String.length (a ++ b) = (String.length a + String.length b)%nat.
Proof. induction a as [| x a IH]; simpl; [reflexivity | now rewrite IH]. Qed.

Lemma length_take (n : nat) (s : string) :
  String.length (Str.take n s) = Nat.min n (String.length s).
Proof.
  revert s. induction n as [| n IH]; intros [| c s]; simpl; try reflexivity.
  now rewrite IH.
Qed.

Lemma length_drop (n : nat) (s : string) :
  String.length (Str.drop n s) = (String.length s - n)%nat.
Proof.
  revert s. induction n as [| n IH]; intros [| c s]; simpl; try reflexivity.
  apply IH.
Qed.

(** Digits read after [acc] shift it left by their number. *)
Lemma digits_value_shift (s : string) (acc : Z) :
  Str.digits_value acc s
  = acc * 10 ^ Z.of_nat (String.length s) + Str.digits_value 0 s.
Proof.
  revert acc. induction s as [| c s IH]; intros acc.
  - simpl. lia.
  - cbn [Str.digits_value String.length].
    rewrite IH, (IH (10 * 0 + _)), Nat2Z.inj_succ, Z.pow_succ_r by lia. ring.
Qed.

Lemma digits_value_two (a b : string) :
  String.length b = 2%nat ->
  Str.digits_value 0 (a ++ b) = 100 * Str.digits_value 0 a + Str.digits_value 0 b.
Proof.
  intros L. rewrite digits_value_app, digits_value_shift, L.
  change (10 ^ Z.of_nat 2) with 100. ring.
Qed.

(** Digits, a point, digits, without the dollar sign. *)
Lemma decode_point (a b : string) :
  Str.all_digits a = true -> Str.all_digits b = true -> a ++ b <> "" ->
  format_price_str_to_int (a ++ "." ++ b) = Return (Str.digits_value 0 (a ++ b)).
Proof.
  intros Ha Hb Hne.
  assert (Str.remove is_dollar_or_dot (a ++ "." ++ b) = a ++ b) as E.
  { change (a ++ "." ++ b) with (a ++ String "." b).
    rewrite remove_app. simpl.
    rewrite !remove_digits; try assumption; reflexivity || (intros c d H; apply (digit_plain c d H)). }
  rewrite decode_with_point; rewrite ?E; try assumption.
  - reflexivity.
  - change (a ++ "." ++ b) with (a ++ String "." b). apply contains_app_char.
  - rewrite all_digits_app, Ha, Hb. reflexivity.
Qed.

(** X1. A price written with exactly two digits after the point is decoded to
    a hundred times the units plus the cents, with or without the dollar
    sign; the units may be left out. *)
Theorem decode_two_decimals (a b : string) :
  Str.all_digits a = true -> Str.all_digits b = true -> String.length b = 2%nat ->
  format_price_str_to_int ("$" ++ a ++ "." ++ b)
  = Return (100 * Str.digits_value 0 a + Str.digits_value 0 b)
  /\ format_price_str_to_int (a ++ "." ++ b)
     = Return (100 * Str.digits_value 0 a + Str.digits_value 0 b).
Proof.
  intros Ha Hb L.
  assert (a ++ b <> "") as Hne.
  { intros E. apply (f_equal String.length) in E. rewrite length_app, L in E.
    simpl in E. lia. }
  rewrite decode_dollar_point, decode_point by assumption.
  now rewrite digits_value_two.
Qed.

Lemma decode_two_decimals_witness :
  format_price_str_to_int ("$" ++ "12" ++ "." ++ "50") = Return (100 * 12 + 50)
  /\ format_price_str_to_int ("12" ++ "." ++ "50") = Return (100 * 12 + 50).
Proof. apply (decode_two_decimals "12" "50"); reflexivity. Defined.

(** X2. The encoding of a price that is not negative: a dollar sign, at least
    one digit, a point and exactly two digits, reading as units and cents. *)
Theorem encode_shape (c : Z) :
  0 <= c ->
  exists a b,
    format_price_int_to_str (SInt c) = "$" ++ a ++ "." ++ b
    /\ Str.all_digits a = true /\ a <> ""
    /\ Str.all_digits b = true /\ String.length b = 2%nat
    /\ 100 * Str.digits_value 0 a + Str.digits_value 0 b = c.
Proof.
  intros Hc. unfold format_price_int_to_str, py_str, py_str_int.
  destruct (Z.ltb_spec c 0) as [| _]; [lia |].
  pose proof (str_nonneg_all_digits c) as Hd.
  pose proof (str_nonneg_not_empty c) as Hne.
  pose proof (str_nonneg_value c Hc) as Hv.
  set (s := str_nonneg c) in *.
  destruct (Z.eqb_spec (Str.len s) 1) as [L1 | L1];
    [| destruct (Z.eqb_spec (Str.len s) 2) as [L2 | L2]].
  - exists "0", ("0" ++ s). unfold Str.len in L1.
    repeat split; auto; try discriminate; simpl; lia.
  - exists "0", s. unfold Str.len in L2. repeat split; auto; try discriminate; lia.
  - assert (3 <= Str.len s) as L3.
    { unfold Str.len in *. destruct s as [| x [| y [| z s']]]; simpl in *; try congruence; lia. }
    assert (Str.bound (-2) (Str.len s) = Str.bound (Str.len s - 2) (Str.len s)) as B.
    { unfold Str.bound. destruct (Z.ltb_spec (Str.len s - 2) 0); [lia |].
      change (-2 <? 0) with true. cbv iota.
      now replace (-2 + Str.len s) with (Str.len s - 2) by lia. }
    unfold Str.slice_to, Str.slice_from. rewrite B.
    set (k := Str.bound (Str.len s - 2) (Str.len s)).
    assert (k = (String.length s - 2)%nat) as Hk.
    { unfold k, Str.bound. destruct (Z.ltb_spec (Str.len s - 2) 0); [lia |].
      unfold Str.len in *. lia. }
    pose proof (take_drop k s) as TD.
    assert (String.length (Str.drop k s) = 2%nat) as L2'.
    { rewrite length_drop. unfold Str.len in L3. lia. }
    exists (Str.take k s), (Str.drop k s). rewrite <- TD, all_digits_app in Hd.
    apply andb_true_iff in Hd as [Hda Hdb].
    repeat split; auto.
    + intros E. apply (f_equal String.length) in E. rewrite length_take in E.
      unfold Str.len in L3. simpl in E. lia.
    + rewrite <- digits_value_two, TD by exact L2'. exact Hv.
Qed.

Lemma encode_shape_witness :
  exists a b,
    format_price_int_to_str (SInt 1250) = "$" ++ a ++ "." ++ b
    /\ Str.all_digits a = true /\ a <> ""
    /\ Str.all_digits b = true /\ String.length b = 2%nat
    /\ 100 * Str.digits_value 0 a + Str.digits_value 0 b = 1250.
Proof. apply (encode_shape 1250). lia. Defined.

Lemma slices_of_last_two (s : string) :
  2 <= Str.len s ->
  Str.slice_to s (Str.len s - 2) = Str.take (String.length s - 2) s
  /\ Str.slice_from s (-2) = Str.drop (String.length s - 2) s.
Proof.
  intros L. unfold Str.slice_to, Str.slice_from, Str.bound.
  destruct (Z.ltb_spec (Str.len s - 2) 0); [lia |].
  change (-2 <? 0) with true. cbv iota. unfold Str.len in *.
  split; f_equal; lia.
Qed.

Lemma py_int_minus_digits (s : string) :
  Str.all_digits s = true -> s <> "" ->
  py_int (String "-" s) = Return (- Str.digits_value 0 s).
Proof.
  intros Hd Hne. unfold py_int. change (skip_spaces (String "-" s)) with (String "-" s).
  cbv iota beta. rewrite (int_body_digits s 0 false Hd); [| now right].
  cbn [skip_spaces]. reflexivity.
Qed.

Lemma str_nonneg_two_digits (n : Z) : 10 <= n -> (2 <= String.length (str_nonneg n))%nat.
Proof.
  intros Hn. unfold str_nonneg.
  assert (3 <= Z.log2 n) as Hl.
  { apply Z.log2_le_pow2; [lia |]. change (2 ^ 3) with 8. lia. }
  destruct (Z.to_nat (Z.log2 n)) as [| f] eqn:Ef; [lia |].
  cbn [digits_loop]. destruct (Z.ltb_spec n 10) as [| _]; [lia |].
  destruct (n / 10 <? 10).
  - simpl. lia.
  - etransitivity; [| apply digits_loop_length]. simpl. lia.
Qed.

(** X3. Encoding a stored price and decoding the result gives the price back,
    for every integer but minus 1 to minus 9 cents: those are written with
    the sign after the point and cannot be read again. *)
Theorem price_round_trip_any (c : Z) :
  format_price_str_to_int (format_price_int_to_str (SInt c))
  = if (-10 <? c) && (c <? 0) then Raise ValueError else Return c.
Proof.
  destruct (Z.ltb_spec c 0) as [Hneg | Hpos].
  - destruct (Z.ltb_spec (-10) c) as [Hsmall | Hbig]; cbn [andb].
    + assert (c = -9 \/ c = -8 \/ c = -7 \/ c = -6 \/ c = -5 \/ c = -4
              \/ c = -3 \/ c = -2 \/ c = -1) as C by lia.
      repeat (destruct C as [-> | C]; [reflexivity |]); subst; reflexivity.
    + pose proof (str_nonneg_all_digits (- c)) as Hd.
      pose proof (str_nonneg_not_empty (- c)) as Hne.
      pose proof (str_nonneg_value (- c) ltac:(lia)) as Hv.
      pose proof (str_nonneg_two_digits (- c) ltac:(lia)) as Hl.
      unfold format_price_int_to_str, py_str, py_str_int.
      destruct (Z.ltb_spec c 0) as [_ |]; [| lia].
      change ("-" ++ str_nonneg (- c)) with (String "-" (str_nonneg (- c))).
      set (d := str_nonneg (- c)) in *. set (s := String "-" d).
      assert (3 <= Str.len s) as L by (unfold Str.len, s; simpl; lia).
      destruct (Z.eqb_spec (Str.len s) 1); [lia |].
      destruct (Z.eqb_spec (Str.len s) 2); [lia |].
      destruct (slices_of_last_two s ltac:(lia)) as [-> ->].
      set (k := (String.length s - 2)%nat).
      assert (Str.remove is_dollar_or_dot s = s) as Es.
      { unfold s. simpl. f_equal. apply remove_digits; [| exact Hd].
        intros x y H. apply (digit_plain x y H). }
      unfold format_price_str_to_int.
      change ("$" ++ Str.take k s ++ "." ++ Str.drop k s)
        with (String "$" (Str.take k s ++ String "." (Str.drop k s))).
      cbn [Str.contains]. rewrite contains_app_char, orb_true_r.
      cbn [Str.remove]. change (is_dollar_or_dot "$") with true. cbv iota.
      rewrite remove_app. cbn [Str.remove]. change (is_dollar_or_dot ".") with true.
      cbv iota. rewrite <- remove_app, take_drop, Es.
      unfold s. rewrite py_int_minus_digits by assumption. f_equal. lia.
  - destruct (Z.ltb_spec (-10) c) as [_ |]; [| lia]. cbn [andb].
    destruct (encode_nonneg c Hpos) as (a & b & -> & Ha & Hb & Hne & Hv).
    rewrite decode_dollar_point by assumption. now rewrite Hv.
Qed.

(** ** More on the date codec *)

Ltac eval_zfill :=
  match goal with
  | |- context [zfill ?w (py_str_int ?n)] =>
      let s := eval vm_compute in (zfill w (py_str_int n)) in
      change (zfill w (py_str_int n)) with s
  end.

(** A padded month at the head of the text: the month directive and the
    stroke after it leave one way on. *)
Lemma directive_m_padded (m : Z) (r : string) (X : Type) (F : Z -> string -> list X) :
  1 <= m <= 12 ->
  flat_map (fun '(m', r1) => flat_map (fun r2 => F m' r2) (Strptime.slash r1))
    (Strptime.directive_m (zfill 2 (py_str_int m) ++ String "/" r))
  = F m r.
Proof.
  intros H.
  assert (m = 1 \/ m = 2 \/ m = 3 \/ m = 4 \/ m = 5 \/ m = 6 \/ m = 7 \/ m = 8
          \/ m = 9 \/ m = 10 \/ m = 11 \/ m = 12) as C by lia.
  repeat (destruct C as [-> | C]; [eval_zfill; cbn; now rewrite ?app_nil_r |]).
  subst. eval_zfill. cbn. now rewrite ?app_nil_r.
Qed.

Lemma directive_d_padded (d : Z) (r : string) (X : Type) (F : Z -> string -> list X) :
  1 <= d <= 31 ->
  flat_map (fun '(d', r3) => flat_map (fun r4 => F d' r4) (Strptime.slash r3))
    (Strptime.directive_d (zfill 2 (py_str_int d) ++ String "/" r))
  = F d r.
Proof.
  intros H.
  assert (d = 1 \/ d = 2 \/ d = 3 \/ d = 4 \/ d = 5 \/ d = 6 \/ d = 7 \/ d = 8
          \/ d = 9 \/ d = 10 \/ d = 11 \/ d = 12 \/ d = 13 \/ d = 14 \/ d = 15
          \/ d = 16 \/ d = 17 \/ d = 18 \/ d = 19 \/ d = 20 \/ d = 21 \/ d = 22
          \/ d = 23 \/ d = 24 \/ d = 25 \/ d = 26 \/ d = 27 \/ d = 28 \/ d = 29
          \/ d = 30 \/ d = 31) as C by lia.
  repeat (destruct C as [-> | C]; [eval_zfill; cbn; now rewrite ?app_nil_r |]).
  subst. eval_zfill. cbn. now rewrite ?app_nil_r.
Qed.

Lemma years_read_back :
  forallb year_read_back (map Z.of_nat (seq 1000 (Z.to_nat 9000))) = true.
Proof. vm_compute. reflexivity. Qed.

Lemma directive_Y_written (y : Z) :
  1000 <= y <= 9999 ->
  Strptime.directive_Y (py_str_int y) = [(y, "")].
Proof.
  intros H. pose proof years_read_back as A. rewrite forallb_forall in A.
  assert (year_read_back y = true) as B.
  { apply A, in_map_iff. exists (Z.to_nat y). split; [lia |]. apply in_seq. lia. }
  unfold year_read_back in B.
  destruct (Strptime.directive_Y (py_str_int y)) as [| [y' rest] l];
    [discriminate |].
  destruct rest; [| discriminate]. destruct l; [| discriminate].
  apply Z.eqb_eq in B. now subst.
Qed.

Lemma app_stroke_not_empty (a r : string) : a ++ String "/" r <> "".
Proof. destruct a; discriminate. Qed.

Lemma strptime_of_strftime (dt : datetime) :
  1000 <= year dt <= 9999 ->
  1 <= month dt <= 12 ->
  1 <= day dt <= days_in_month (year dt) (month dt) ->
  strptime_mdY (strftime_mdY dt)
  = Return (mk_datetime (year dt) (month dt) (day dt) 0 0 0 0).
Proof.
  intros Hy Hm Hd.
  assert (day dt <= 31) as Hd31.
  { unfold days_in_month in Hd.
    destruct (month dt =? 2); [destruct (is_leap (year dt)); lia |].
    destruct (_ || _); lia. }
  unfold strftime_mdY, strptime_mdY, Strptime.matches.
  change (zfill 2 (py_str_int (month dt)) ++ "/" ++ zfill 2 (py_str_int (day dt))
          ++ "/" ++ py_str_int (year dt))
    with (zfill 2 (py_str_int (month dt))
          ++ String "/" (zfill 2 (py_str_int (day dt))
                         ++ String "/" (py_str_int (year dt)))).
  rewrite directive_m_padded by exact Hm.
  rewrite directive_d_padded by lia.
  rewrite directive_Y_written by exact Hy. cbn [map].
  unfold make_date.
  destruct (Z.leb_spec 1 (year dt)); [| lia].
  destruct (Z.leb_spec (year dt) 9999); [| lia].
  destruct (Z.leb_spec 1 (month dt)); [| lia].
  destruct (Z.leb_spec (month dt) 12); [| lia].
  destruct (Z.leb_spec 1 (day dt)); [| lia].
  destruct (Z.leb_spec (day dt) (days_in_month (year dt) (month dt))); [| lia].
  reflexivity.
Qed.

Lemma strftime_not_empty (dt : datetime) : strftime_mdY dt <> "".
Proof.
  unfold strftime_mdY.
  change (zfill 2 (py_str_int (month dt)) ++ "/" ++ zfill 2 (py_str_int (day dt))
          ++ "/" ++ py_str_int (year dt))
    with (zfill 2 (py_str_int (month dt))
          ++ String "/" (zfill 2 (py_str_int (day dt))
                         ++ String "/" (py_str_int (year dt)))).
  apply app_stroke_not_empty.
Qed.

Lemma decode_date_of_text (s : string) (w : world) :
  s <> "" -> format_date_str_to_datetime (Some s) w = (strptime_mdY s, w).
Proof. destruct s; [congruence | reflexivity]. Qed.

Lemma strptime_calendar_day (s : string) (dt : datetime) :
  strptime_mdY s = Return dt ->
  1 <= year dt <= 9999
  /\ 1 <= month dt <= 12
  /\ 1 <= day dt <= days_in_month (year dt) (month dt)
  /\ dt = mk_datetime (year dt) (month dt) (day dt) 0 0 0 0.
Proof.
  unfold strptime_mdY.
  destruct (Strptime.matches s) as [| [[[m d] y] [| c r]] l]; try discriminate.
  unfold make_date.
  destruct (Z.leb_spec 1 y); [| discriminate].
  destruct (Z.leb_spec y 9999); [| discriminate].
  destruct (Z.leb_spec 1 m); [| discriminate].
  destruct (Z.leb_spec m 12); [| discriminate].
  destruct (Z.leb_spec 1 d); [| discriminate].
  destruct (Z.leb_spec d (days_in_month y m)); [| discriminate].
  intros E. injection E as <-. simpl. repeat split; lia.
Qed.

(** X4. Every datetime of the years 1000 to 9999 is read back from its
    encoding, as midnight of its day: the time of day is not written. (A
    year below 1000 is left out: how many digits it is written with
    depends on the C library.) *)
Theorem date_round_trip (g : defaults) (dt : datetime) (w : world) :
  1000 <= year dt <= 9999 ->
  1 <= month dt <= 12 ->
  1 <= day dt <= days_in_month (year dt) (month dt) ->
  format_date_str_to_datetime (Some (format_date_datetime_to_str g (Some dt))) w
  = (Return (mk_datetime (year dt) (month dt) (day dt) 0 0 0 0), w).
Proof.
  intros Hy Hm Hd. unfold format_date_datetime_to_str.
  rewrite decode_date_of_text by apply strftime_not_empty.
  now rewrite strptime_of_strftime.
Qed.

Lemma date_round_trip_witness :
  format_date_str_to_datetime
    (Some (format_date_datetime_to_str (mk_defaults march_4_2021)
             (Some (mk_datetime 2020 2 29 17 45 10 0))))
    (world_with [] None [])
  = (Return (mk_datetime 2020 2 29 0 0 0 0), world_with [] None []).
Proof.
  apply (date_round_trip (mk_defaults march_4_2021) (mk_datetime 2020 2 29 17 45 10 0)
           (world_with [] None [])); simpl; vm_compute; split; discriminate.
Defined.

(** X5. A text that is decoded is decoded to midnight of a day of the
    calendar; and when its year is 1000 or later, the encoding of that date
    (which may differ from the text: it is padded with zeros) is decoded to
    the same date. *)
Theorem decoded_date_is_a_calendar_day (g : defaults) (s : string) (dt : datetime)
    (w : world) :
  s <> "" ->
  format_date_str_to_datetime (Some s) w = (Return dt, w) ->
  1 <= year dt <= 9999
  /\ 1 <= month dt <= 12
  /\ 1 <= day dt <= days_in_month (year dt) (month dt)
  /\ hour dt = 0 /\ minute dt = 0 /\ second dt = 0 /\ microsecond dt = 0
  /\ (1000 <= year dt ->
      format_date_str_to_datetime (Some (format_date_datetime_to_str g (Some dt))) w
      = (Return dt, w)).
Proof.
  intros Hs H. rewrite decode_date_of_text in H by exact Hs.
  injection H as H. destruct (strptime_calendar_day s dt H) as (Hy & Hm & Hd & E).
  repeat split; try lia; try (rewrite E; reflexivity).
  intros Hy'. unfold format_date_datetime_to_str.
  rewrite decode_date_of_text by apply strftime_not_empty.
  rewrite strptime_of_strftime by (assumption || lia). now rewrite <- E.
Qed.

Lemma decoded_date_is_a_calendar_day_witness :
  let w := world_with [] None [] in
  1 <= year march_4_2021 <= 9999
  /\ 1 <= month march_4_2021 <= 12
  /\ 1 <= day march_4_2021 <= days_in_month (year march_4_2021) (month march_4_2021)
  /\ hour march_4_2021 = 0 /\ minute march_4_2021 = 0
  /\ second march_4_2021 = 0 /\ microsecond march_4_2021 = 0
  /\ format_date_str_to_datetime
       (Some (format_date_datetime_to_str (mk_defaults march_4_2021) (Some march_4_2021))) w
     = (Return march_4_2021, w).
Proof.
  destruct (decoded_date_is_a_calendar_day (mk_defaults march_4_2021) "3/4/2021"
              march_4_2021 (world_with [] None []) ltac:(discriminate) eq_refl)
    as (Hy & Hm & Hd & Hh & Hmi & Hs & Hu & Hr).
  refine (conj Hy (conj Hm (conj Hd (conj Hh (conj Hmi (conj Hs (conj Hu (Hr _)))))))).
  simpl. lia.
Defined.

(** ** What the effectful functions leave alone *)

Section Respects.

Variable R : world -> world -> Prop.
Hypothesis R_refl : forall w, R w w.
Hypothesis R_trans : forall a b c, R a b -> R b c -> R a c.

Lemma respects_ret {A} (a : A) : respects R (ret a).
Proof. intros w. apply R_refl. Qed.

Lemma respects_lift {A} (o : outcome A) : respects R (lift o).
Proof. intros w. apply R_refl. Qed.

Lemma respects_raise {A} (e : exn) : respects R (@raise A e).
Proof. intros w. apply R_refl. Qed.

Lemma respects_bind {A B} (m : M A) (k : A -> M B) :
  respects R m -> (forall a, respects R (k a)) -> respects R (bind m k).
Proof.
  intros Hm Hk w. unfold bind. specialize (Hm w).
  destruct (m w) as [[a | e |] w1]; simpl in *; try exact Hm.
  eapply R_trans; [exact Hm | apply Hk].
Qed.

Lemma respects_try_except {A} (body handler : M A) (catches : exn -> bool) :
  respects R body -> respects R handler -> respects R (try_except body catches handler).
Proof.
  intros Hb Hh w. unfold try_except. specialize (Hb w).
  destruct (body w) as [[a | e |] w1]; simpl in *; try exact Hb.
  destruct (catches e); simpl; [| exact Hb].
  eapply R_trans; [exact Hb | apply Hh].
Qed.

Lemma respects_while_not_valid {A} (pass : M (option A)) (lines : list string) :
  respects R pass -> respects R (while_not_valid pass lines).
Proof.
  intros Hp. induction lines as [| l lines IH]; cbn [while_not_valid];
    apply respects_bind; try exact Hp; intros [a |];
    try apply respects_ret; [intros w; apply R_refl | exact IH].
Qed.

Lemma respects_for_each {A} (body : A -> M unit) (l : list A) :
  (forall a, respects R (body a)) -> respects R (for_each body l).
Proof.
  intros Hb. induction l as [| x l IH]; cbn [for_each].
  - apply respects_ret.
  - apply respects_bind; [apply Hb | intros _; exact IH].
Qed.

End Respects.

Lemma console_only_refl (w : world) : console_only w w.
Proof.
  repeat split; [exists [] | exists []]; [now rewrite app_nil_r | reflexivity].
Qed.

Lemma console_only_trans (a b c : world) :
  console_only a b -> console_only b c -> console_only a c.
Proof.
  intros (T1 & C1 & K1 & [o1 O1] & [u1 U1]) (T2 & C2 & K2 & [o2 O2] & [u2 U2]).
  repeat split; try congruence.
  - exists (o1 ++ o2)%list. now rewrite O2, O1, app_assoc.
  - exists (u1 ++ u2)%list. now rewrite U1, U2, app_assoc.
Qed.

Lemma console_only_print (s : string) : respects console_only (print s).
Proof.
  intros w. repeat split; [exists [s] | exists []]; reflexivity.
Qed.

Lemma console_only_input (prompt : string) : respects console_only (input prompt).
Proof.
  intros w. unfold input. destruct (stdin w) as [| l rest] eqn:E; simpl;
    repeat split; try (exists [prompt]; reflexivity).
  - exists []. now rewrite E.
  - exists [l]. now rewrite E.
Qed.

Lemma console_only_Product_get (condition : Product sqlval -> bool) :
  respects console_only (Product_get condition).
Proof.
  intros w. unfold Product_get. destruct (find _ _); apply console_only_refl.
Qed.

Ltac console :=
  repeat first
    [ apply (respects_bind console_only console_only_trans); [| intros ?]
    | apply (respects_try_except console_only console_only_trans)
    | apply (respects_while_not_valid console_only console_only_refl console_only_trans)
    | apply (respects_ret console_only console_only_refl)
    | apply (respects_lift console_only console_only_refl)
    | apply console_only_print
    | apply console_only_input
    | apply console_only_Product_get ].

Lemma console_only_int_prompt (prompt msg : string) :
  respects console_only (int_prompt prompt msg).
Proof. unfold int_prompt. console. Qed.

Lemma console_only_price_prompt : respects console_only price_prompt.
Proof.
  unfold price_prompt. console. destruct (Re.search_price _); console.
Qed.

Lemma console_only_get_quantity_from_user : respects console_only get_quantity_from_user.
Proof.
  intros w. apply (respects_while_not_valid console_only console_only_refl console_only_trans).
  apply console_only_int_prompt.
Qed.

Lemma console_only_get_price_from_user : respects console_only get_price_from_user.
Proof.
  intros w. apply (respects_while_not_valid console_only console_only_refl console_only_trans).
  apply console_only_price_prompt.
Qed.

Lemma console_only_view_product_by_id (g : defaults) :
  respects console_only (view_product_by_id g).
Proof.
  unfold view_product_by_id. console.
  intros w.
  apply (respects_while_not_valid console_only console_only_refl console_only_trans).
  apply console_only_int_prompt.
Qed.

(** X6. Viewing a product touches nothing but the console: the table, the seed
    file and the clock are as before, output is only added and input only
    used up, whatever is typed. *)
Theorem view_product_by_id_console_only (g : defaults) (w : world) :
  let w' := snd (view_product_by_id g w) in
  table w' = table w /\ inventory_csv w' = inventory_csv w /\ clock w' = clock w
  /\ (exists out, stdout w' = (stdout w ++ out)%list)
  /\ (exists used, stdin w = (used ++ stdin w')%list).
Proof. exact (console_only_view_product_by_id g w). Qed.

(** ** The prompt loops *)

Lemma console_at_nil (w : world) : console_at w (stdin w) [] = w.
Proof. destruct w. unfold console_at. simpl. now rewrite app_nil_r. Qed.

Lemma console_at_twice (w : world) (r1 r2 o1 o2 : list string) :
  console_at (console_at w r1 o1) r2 o2 = console_at w r2 (o1 ++ o2).
Proof. unfold console_at. simpl. now rewrite app_assoc. Qed.

(** A loop passes over the lines its pass refuses. *)
Lemma while_not_valid_skips {A} (pass : M (option A)) (prompt msg : string)
    (bad : list string) :
  (forall l, In l bad -> forall w rest,
      stdin w = l :: rest -> pass w = (Return None, console_at w rest [prompt; msg])) ->
  forall w tail,
    stdin w = (bad ++ tail)%list ->
    while_not_valid pass (stdin w) w
    = while_not_valid pass tail (console_at w tail (refusals prompt msg bad)).
Proof.
  induction bad as [| l bad IH]; intros Hbad w tail Hin.
  - simpl in Hin. rewrite Hin at 1. cbn [refusals flat_map].
    now rewrite <- Hin, console_at_nil.
  - rewrite Hin. cbn [app while_not_valid]. unfold bind at 1.
    rewrite (Hbad l (or_introl eq_refl) w (bad ++ tail)%list Hin).
    specialize (IH (fun l' H => Hbad l' (or_intror H))
                  (console_at w (bad ++ tail) [prompt; msg]) tail eq_refl).
    cbn [stdin console_at] in IH. unfold console_at at 1 in IH. cbn [stdin] in IH.
    fold (console_at w (bad ++ tail) [prompt; msg]) in IH.
    rewrite IH, console_at_twice. reflexivity.
Qed.

Lemma int_prompt_refuses (prompt msg : string) (w : world) (l : string)
    (rest : list string) (e : exn) :
  stdin w = l :: rest -> py_int l = Raise e ->
  int_prompt prompt msg w = (Return None, console_at w rest [prompt; msg]).
Proof.
  intros Hin Hl. unfold int_prompt, console_at. run_io. rewrite Hin, Hl.
  unfold set_stdin, set_stdout. cbn [table inventory_csv stdin stdout clock].
  now rewrite <- app_assoc.
Qed.

Lemma int_prompt_takes (prompt msg : string) (w : world) (l : string)
    (rest : list string) (n : Z) :
  stdin w = l :: rest -> py_int l = Return n ->
  int_prompt prompt msg w = (Return (Some n), console_at w rest [prompt]).
Proof. intros Hin Hl. unfold int_prompt, console_at. run_io. now rewrite Hin, Hl. Qed.

Lemma int_prompt_end (prompt msg : string) (w : world) :
  stdin w = [] ->
  int_prompt prompt msg w = (Return None, console_at w [] [prompt; msg]).
Proof.
  intros Hin. unfold int_prompt, console_at. run_io. rewrite Hin.
  unfold set_stdout. cbn [table inventory_csv stdin stdout clock].
  now rewrite <- app_assoc, Hin.
Qed.

Lemma int_loop_returns (prompt msg : string) (bad : list string) (w : world)
    (good : string) (rest : list string) (n : Z) :
  Forall (fun l => py_int l = Raise ValueError) bad ->
  stdin w = (bad ++ good :: rest)%list ->
  py_int good = Return n ->
  while_not_valid (int_prompt prompt msg) (stdin w) w
  = (Return n, console_at w rest (refusals prompt msg bad ++ [prompt])).
Proof.
  intros Hbad Hin Hgood.
  rewrite (while_not_valid_skips (int_prompt prompt msg) prompt msg bad) with (tail := good :: rest);
    [| | exact Hin].
  - cbn [while_not_valid]. unfold bind at 1.
    rewrite (int_prompt_takes prompt msg
               (console_at w (good :: rest) (refusals prompt msg bad)) good rest n
               eq_refl Hgood).
    unfold ret. now rewrite console_at_twice.
  - intros l Hl w1 rest1 Hin1. rewrite Forall_forall in Hbad.
    apply (int_prompt_refuses prompt msg w1 l rest1 ValueError Hin1 (Hbad l Hl)).
Qed.

Lemma int_loop_hangs (prompt msg : string) (bad : list string) (w : world) :
  Forall (fun l => py_int l = Raise ValueError) bad ->
  stdin w = bad ->
  fst (while_not_valid (int_prompt prompt msg) (stdin w) w) = Hang.
Proof.
  intros Hbad Hin.
  rewrite (while_not_valid_skips (int_prompt prompt msg) prompt msg bad) with (tail := []);
    [| | now rewrite app_nil_r].
  - cbn [while_not_valid]. unfold bind at 1.
    now rewrite (int_prompt_end prompt msg
                   (console_at w [] (refusals prompt msg bad)) eq_refl).
  - intros l Hl w1 rest1 Hin1. rewrite Forall_forall in Hbad.
    apply (int_prompt_refuses prompt msg w1 l rest1 ValueError Hin1 (Hbad l Hl)).
Qed.

(** Once the id prompt has refused the lines [bad] and taken an integer,
    what is left is the lookup under the bare [except]. *)
Lemma view_product_by_id_after_prompts (g : defaults) (w : world) (bad : list string)
    (line : string) (rest : list string) (id : Z) :
  stdin w = (bad ++ line :: rest)%list ->
  Forall (fun l => py_int l = Raise ValueError) bad ->
  py_int line = Return id ->
  view_product_by_id g w
  = try_except
      (product <- Product_get_by_id id ;; display_product g product)
      bare_except
      (print "Sorry, product with this ID not found")
      (console_at w rest
         (refusals "Enter product id: " "Product id needs to be a number, please retry" bad
          ++ ["Enter product id: "])).
Proof.
  intros Hin Hbad Hint.
  pose proof (int_loop_returns "Enter product id: "
                "Product id needs to be a number, please retry" bad w line rest id
                Hbad Hin Hint) as E.
  unfold int_prompt in E. unfold view_product_by_id. unfold bind at 1.
  now rewrite E.
Qed.

(** C8. Let the id prompt be answered by lines [bad] that are no integers,
    each of which gets the message and a new prompt, and then by a line
    that is the integer [id].
    - When no product has that id, [view_product_by_id] prints the
      not-found message and returns without reading anything more.
    - When a product has it, the id and name, the encoded price, the
      quantity and the encoded date are printed, then one more line is
      read (the key press) before returning. (Should the input end there,
      the not-found message follows.)
    In no state at all does [view_product_by_id] raise. *)
Theorem view_product_by_id_spec (g : defaults) (w : world) (bad : list string)
    (line : string) (rest : list string) (id : Z) :
  stdin w = (bad ++ line :: rest)%list ->
  Forall (fun l => py_int l = Raise ValueError) bad ->
  py_int line = Return id ->
  let asked :=
    (refusals "Enter product id: " "Product id needs to be a number, please retry" bad
     ++ ["Enter product id: "])%list in
  match row_with_id id (table w) with
  | None =>
      view_product_by_id g w
      = (Return tt,
         mk_world (table w) (inventory_csv w) rest
           (stdout w ++ asked ++ ["Sorry, product with this ID not found"])
           (clock w))
  | Some p =>
      let out := (stdout w ++ asked ++ shown g p
                  ++ ["Press any key to continue "])%list in
      match rest with
      | _ :: rest' =>
          view_product_by_id g w
          = (Return tt, mk_world (table w) (inventory_csv w) rest' out (clock w))
      | [] =>
          view_product_by_id g w
          = (Return tt,
             mk_world (table w) (inventory_csv w) []
               (out ++ ["Sorry, product with this ID not found"]) (clock w))
      end
  end
  /\ never_raises (view_product_by_id g).
Proof.
  intros Hin Hbad Hint asked. split.
  - pose proof (Product_get_by_id_run id (console_at w rest asked)) as Hget.
    cbn [console_at table] in Hget.
    destruct (row_with_id id (table w)) as [p |]; [destruct rest as [| k rest'] |];
      cbv zeta; rewrite (view_product_by_id_after_prompts g w bad line _ id Hin Hbad Hint);
      fold asked; unfold try_except; unfold bind at 1;
      [rewrite Hget, display_product_run .. | destruct Hget as [e ->]];
      unfold bare_except, print, console_at, set_stdin, set_stdout;
      cbn [table inventory_csv stdin stdout clock];
      repeat rewrite <- app_assoc; reflexivity.
  - unfold view_product_by_id. apply bind_never_raises.
    + intros w1. apply while_not_valid_never_raises.
      apply bare_except_never_raises, bind_never_raises;
        [apply print_never_raises | intros _ ? ?; discriminate].
    + intros a. apply bare_except_never_raises, print_never_raises.
Qed.

Lemma view_product_by_id_spec_witness :
  let w := world_with [widget_stored] None ["x"; "1"; ""] in
  view_product_by_id (mk_defaults march_4_2021) w
  = (Return tt,
     mk_world [widget_stored] None []
       ["Enter product id: "; "Product id needs to be a number, please retry";
        "Enter product id: "; "Product 1:  Widget"; "Price: $5.00";
        "Quantity in stock: 10"; "Date Last Updated: 03/04/2021";
        "Press any key to continue "]
       (clock w)).
Proof.
  exact (proj1 (view_product_by_id_spec (mk_defaults march_4_2021)
                  (world_with [widget_stored] None ["x"; "1"; ""]) ["x"] "1" [""] 1
                  eq_refl ltac:(repeat constructor) eq_refl)).
Defined.

(** X7. The quantity prompt answers every line that is no integer with its
    message and asks again; it returns the first line that is one, leaving
    the lines after it unread. If the input ends before, the loop never
    ends. It raises in no state. *)
Theorem get_quantity_from_user_spec (w : world) (bad : list string) :
  Forall (fun l => py_int l = Raise ValueError) bad ->
  (forall good rest q,
      stdin w = (bad ++ good :: rest)%list -> py_int good = Return q ->
      get_quantity_from_user w
      = (Return q,
         console_at w rest
           (refusals "Please enter quantity of product in stock: "
              "Quantity needs to be a number, please retry" bad
            ++ ["Please enter quantity of product in stock: "])))
  /\ (stdin w = bad -> fst (get_quantity_from_user w) = Hang)
  /\ never_raises get_quantity_from_user.
Proof.
  intros Hbad. repeat split.
  - intros good rest q Hin Hq.
    exact (int_loop_returns _ _ bad w good rest q Hbad Hin Hq).
  - intros Hin. exact (int_loop_hangs _ _ bad w Hbad Hin).
  - intros w1. apply while_not_valid_never_raises.
    apply bare_except_never_raises, bind_never_raises;
      [apply print_never_raises | intros _ ? ?; discriminate].
Qed.

Lemma get_quantity_from_user_spec_witness :
  get_quantity_from_user (world_with [] None ["ten"; "1.5"; " 10 "; "next"])
  = (Return 10,
     console_at (world_with [] None ["ten"; "1.5"; " 10 "; "next"]) ["next"]
       (refusals "Please enter quantity of product in stock: "
          "Quantity needs to be a number, please retry" ["ten"; "1.5"]
        ++ ["Please enter quantity of product in stock: "])).
Proof.
  exact (proj1 (get_quantity_from_user_spec
                  (world_with [] None ["ten"; "1.5"; " 10 "; "next"]) ["ten"; "1.5"]
                  ltac:(repeat constructor))
           " 10 " ["next"] 10 eq_refl eq_refl).
Defined.

Lemma price_prompt_refuses (w : world) (l : string) (rest : list string) :
  stdin w = l :: rest -> Re.search_price l = false ->
  price_prompt w
  = (Return None,
     console_at w rest ["Please enter product price: "; "Invalid price, please retry"]).
Proof.
  intros Hin Hl. unfold price_prompt, console_at. unfold bind at 1, input.
  rewrite Hin, Hl. run_io. unfold set_stdin, set_stdout.
  cbn [table inventory_csv stdin stdout clock]. now rewrite <- app_assoc.
Qed.

Lemma price_prompt_takes (w : world) (l : string) (rest : list string) :
  stdin w = l :: rest -> Re.search_price l = true ->
  price_prompt w
  = (outcome_map Some (format_price_str_to_int l),
     console_at w rest ["Please enter product price: "]).
Proof.
  intros Hin Hl. unfold price_prompt, console_at. unfold bind at 1, input.
  rewrite Hin, Hl. run_io. now destruct (format_price_str_to_int l).
Qed.

Lemma price_prompt_end (w : world) :
  stdin w = [] ->
  price_prompt w = (Raise EOFError, console_at w [] ["Please enter product price: "]).
Proof.
  intros Hin. unfold price_prompt, console_at. unfold bind at 1, input.
  rewrite Hin. unfold set_stdout. now rewrite Hin.
Qed.

Lemma price_loop_takes (bad : list string) (w : world) (good : string)
    (rest : list string) :
  Forall (fun l => Re.search_price l = false) bad ->
  stdin w = (bad ++ good :: rest)%list ->
  Re.search_price good = true ->
  while_not_valid price_prompt (stdin w) w
  = (format_price_str_to_int good,
     console_at w rest
       (refusals "Please enter product price: " "Invalid price, please retry" bad
        ++ ["Please enter product price: "])).
Proof.
  intros Hbad Hin Hgood.
  rewrite (while_not_valid_skips price_prompt "Please enter product price: "
             "Invalid price, please retry" bad) with (tail := good :: rest);
    [| | exact Hin].
  - cbn [while_not_valid]. unfold bind at 1.
    rewrite (price_prompt_takes
               (console_at w (good :: rest)
                  (refusals "Please enter product price: " "Invalid price, please retry" bad))
               good rest eq_refl Hgood).
    rewrite console_at_twice.
    destruct (format_price_str_to_int good); reflexivity.
  - intros l Hl w1 rest1 Hin1. rewrite Forall_forall in Hbad.
    apply (price_prompt_refuses w1 l rest1 Hin1 (Hbad l Hl)).
Qed.

Lemma price_loop_end (bad : list string) (w : world) :
  Forall (fun l => Re.search_price l = false) bad ->
  stdin w = bad ->
  while_not_valid price_prompt (stdin w) w
  = (Raise EOFError,
     console_at w []
       (refusals "Please enter product price: " "Invalid price, please retry" bad
        ++ ["Please enter product price: "])).
Proof.
  intros Hbad Hin.
  rewrite (while_not_valid_skips price_prompt "Please enter product price: "
             "Invalid price, please retry" bad) with (tail := []);
    [| | now rewrite app_nil_r].
  - cbn [while_not_valid]. unfold bind at 1.
    rewrite (price_prompt_end
               (console_at w []
                  (refusals "Please enter product price: " "Invalid price, please retry" bad))
               eq_refl).
    now rewrite console_at_twice.
  - intros l Hl w1 rest1 Hin1. rewrite Forall_forall in Hbad.
    apply (price_prompt_refuses w1 l rest1 Hin1 (Hbad l Hl)).
Qed.

(** X8. The price prompt answers every line without a digit with its message
    and asks again. The first line that holds a digit ends the loop with
    whatever the decoder makes of it, its cents or its exception, and the
    lines after it stay unread. If the input ends before, [EOFError] is
    raised. *)
Theorem get_price_from_user_spec (w : world) (bad : list string) :
  Forall (fun l => has_digit l = false) bad ->
  (forall good rest,
      stdin w = (bad ++ good :: rest)%list -> has_digit good = true ->
      get_price_from_user w
      = (format_price_str_to_int good,
         console_at w rest
           (refusals "Please enter product price: " "Invalid price, please retry" bad
            ++ ["Please enter product price: "])))
  /\ (stdin w = bad ->
      get_price_from_user w
      = (Raise EOFError,
         console_at w []
           (refusals "Please enter product price: " "Invalid price, please retry" bad
            ++ ["Please enter product price: "]))).
Proof.
  intros Hbad.
  assert (Forall (fun l => Re.search_price l = false) bad) as Hbad'.
  { eapply Forall_impl; [| exact Hbad]. intros l H.
    now rewrite search_price_iff_has_digit. }
  split.
  - intros good rest Hin Hgood. rewrite <- search_price_iff_has_digit in Hgood.
    exact (price_loop_takes bad w good rest Hbad' Hin Hgood).
  - intros Hin. exact (price_loop_end bad w Hbad' Hin).
Qed.

Lemma get_price_from_user_spec_witness :
  get_price_from_user (world_with [] None ["free"; "$"; "about $3.50"; "next"])
  = (format_price_str_to_int "about $3.50",
     console_at (world_with [] None ["free"; "$"; "about $3.50"; "next"]) ["next"]
       (refusals "Please enter product price: " "Invalid price, please retry" ["free"; "$"]
        ++ ["Please enter product price: "])).
Proof.
  exact (proj1 (get_price_from_user_spec
                  (world_with [] None ["free"; "$"; "about $3.50"; "next"]) ["free"; "$"]
                  ltac:(repeat constructor))
           "about $3.50" ["next"] eq_refl eq_refl).
Defined.

(** ** Rows are only added *)

Lemma fold_max_bounds (l : list Z) (a : Z) :
  a <= fold_left Z.max l a /\ forall x, In x l -> x <= fold_left Z.max l a.
Proof.
  revert a. induction l as [| y l IH]; intros a; simpl.
  - split; [lia | tauto].
  - destruct (IH (Z.max a y)) as [H1 H2]. split; [lia |].
    intros x [-> | Hx]; [lia | now apply H2].
Qed.

(** The key of a new row is above every key in use. *)
Lemma next_id_above (t : list (Product sqlval)) (p : Product sqlval) :
  In p t -> product_id p < next_id t.
Proof.
  destruct t as [| p0 r]; [intros [] |]. intros H. unfold next_id.
  destruct (fold_max_bounds (map product_id r) (product_id p0)) as [H1 H2].
  destruct H as [<- | H]; [lia |].
  specialize (H2 (product_id p) (in_map product_id r p H)). lia.
Qed.

Lemma keys_with_next_id (t : list (Product sqlval)) (row : Product sqlval) :
  product_id row = next_id t -> NoDup (keys t) -> NoDup (keys (t ++ [row])).
Proof.
  intros Hid Hnd. unfold keys. rewrite map_app. simpl.
  apply NoDup_app; [exact Hnd | repeat constructor; intros [] |].
  intros k Hk [<- | []]. apply in_map_iff in Hk as (p & Hp & Hin).
  pose proof (next_id_above t p Hin). lia.
Qed.

Lemma find_never (t : list (Product sqlval)) : find (name_is None) t = None.
Proof. induction t as [| p t IH]; [reflexivity | exact IH]. Qed.

(** [Product.create] raises and leaves the table alone, or inserts. *)
Lemma Product_create_cases (name : option string) (quantity price : pyval)
    (date : datetime) (w : world) :
  (exists e, Product_create name quantity price date w = (Raise e, w))
  \/ exists n q p,
       name = Some n
       /\ IntegerField_db_value quantity = Return (Some q)
       /\ IntegerField_db_value price = Return (Some p)
       /\ Product_create name quantity price date w
          = (Return (mk_Product (next_id (table w)) n q p date),
             set_table (table w ++ [mk_Product (next_id (table w)) n q p date]) w).
Proof.
  assert (forall z, sqlite_int z <> Hang) as Hs.
  { intros z. unfold sqlite_int. destruct (_ && _); discriminate. }
  assert (forall v, IntegerField_db_value v <> Hang) as Hv.
  { intros [| z | t |]; simpl; try discriminate.
    - specialize (Hs z). destruct (sqlite_int z); simpl; congruence.
    - destruct (py_int t) as [z | |]; try discriminate.
      specialize (Hs z). destruct (sqlite_int z); simpl; congruence. }
  unfold Product_create, bind, lift.
  pose proof (Hv quantity) as Hq. pose proof (Hv price) as Hp.
  destruct (IntegerField_db_value quantity) as [[q |] | e |]; try congruence;
    try (left; now eexists);
    destruct (IntegerField_db_value price) as [[p |] | e' |]; try congruence;
    try (left; now eexists);
    destruct name as [n |];
    cbn -[next_id]; try (left; now eexists).
  right. exists n, q, p. repeat split.
Qed.

(** What [add_record_to_db] does to the state: nothing, or one row more. *)
Lemma add_record_to_db_cases (record : Dict.t) (w : world) :
  snd (add_record_to_db record w) = w
  \/ exists n q p,
       Dict.product_name record = Some n
       /\ IntegerField_db_value (Dict.product_quantity record) = Return (Some q)
       /\ IntegerField_db_value (Dict.product_price record) = Return (Some p)
       /\ add_record_to_db record w
          = (Return tt,
             set_table (table w ++ [mk_Product (next_id (table w)) n q p
                                      (Dict.date_updated record)]) w).
Proof.
  destruct (Product_create_cases (Dict.product_name record) (Dict.product_quantity record)
              (Dict.product_price record) (Dict.date_updated record) w)
    as [[e He] | (n & q & p & Hn & Hq & Hp & He)].
  - left. unfold add_record_to_db, try_except. unfold bind at 1. rewrite He.
    destruct (is_IntegrityError e); [| reflexivity].
    unfold bind, Product_get. destruct (find _ (table w)); [| reflexivity].
    destruct (datetime_gt _ _); reflexivity.
  - right. exists n, q, p. repeat split; try assumption.
    unfold add_record_to_db, try_except. unfold bind at 1. now rewrite He.
Qed.

(** X9. [add_record_to_db] never changes or removes a stored row, whatever the
    record: the table afterwards is the table before, or the table before
    with one row more at its end, under a key above every key in use. The
    console, the clock and the seed file are not touched. *)
Theorem add_record_to_db_only_appends (record : Dict.t) (w : world) :
  let w' := snd (add_record_to_db record w) in
  stdin w' = stdin w /\ stdout w' = stdout w /\ clock w' = clock w
  /\ inventory_csv w' = inventory_csv w
  /\ (table w' = table w
      \/ exists row,
           table w' = (table w ++ [row])%list
           /\ forall p, In p (table w) -> product_id p < product_id row).
Proof.
  destruct (add_record_to_db_cases record w) as [E | (n & q & p & _ & _ & _ & E)];
    cbv zeta; rewrite E.
  - repeat split. now left.
  - repeat split. right. eexists. split; [reflexivity |].
    intros p0 H. now apply next_id_above.
Qed.

Lemma appended_refl (P : Product sqlval -> Prop) (w : world) : appended P w w.
Proof.
  split; [reflexivity |]. exists []. rewrite app_nil_r. repeat split; auto.
Qed.

Lemma appended_trans (P : Product sqlval -> Prop) (a b c : world) :
  appended P a b -> appended P b c -> appended P a c.
Proof.
  intros (C1 & l1 & T1 & F1 & N1) (C2 & l2 & T2 & F2 & N2).
  split; [congruence |]. exists (l1 ++ l2)%list. repeat split.
  - now rewrite T2, T1, app_assoc.
  - apply Forall_app. now split.
  - auto.
Qed.

Lemma console_only_appended (P : Product sqlval -> Prop) (w w' : world) :
  console_only w w' -> appended P w w'.
Proof.
  intros (T & C & _). split; [exact C |]. exists []. rewrite app_nil_r, T.
  repeat split; auto.
Qed.

Lemma respects_weaken (R R' : world -> world -> Prop) {A} (m : M A) :
  (forall w w', R w w' -> R' w w') -> respects R m -> respects R' m.
Proof. intros H Hm w. apply H, Hm. Qed.

(** [bind] when the relation of the second part depends on a property of
    the value the first part returns. *)
Lemma respects_bind_post (R : world -> world -> Prop) {A B} (Q : A -> Prop)
    (m : M A) (k : A -> M B) :
  (forall a b c, R a b -> R b c -> R a c) ->
  (forall w a w', m w = (Return a, w') -> Q a) ->
  respects R m -> (forall a, Q a -> respects R (k a)) -> respects R (bind m k).
Proof.
  intros Htrans Hq Hm Hk w. unfold bind. specialize (Hm w). specialize (Hq w).
  destruct (m w) as [[a | e |] w1]; simpl in *; try exact Hm.
  eapply Htrans; [exact Hm | apply Hk, (Hq a w1 eq_refl)].
Qed.

Lemma appended_datetime_now (P : Product sqlval -> Prop) :
  respects (appended P) datetime_now.
Proof.
  intros w. split; [reflexivity |]. exists []. simpl. rewrite app_nil_r.
  repeat split; auto.
Qed.

Lemma appended_add_record_to_db (P : Product sqlval -> Prop) (record : Dict.t) :
  (forall id n q p,
      IntegerField_db_value (Dict.product_price record) = Return (Some p) ->
      P (mk_Product id n q p (Dict.date_updated record))) ->
  respects (appended P) (add_record_to_db record).
Proof.
  intros HP w.
  destruct (add_record_to_db_cases record w) as [E | (n & q & p & _ & _ & Hp & E)];
    rewrite E; [apply appended_refl |].
  split; [reflexivity |]. eexists. simpl. repeat split.
  - repeat constructor. now apply HP.
  - now apply keys_with_next_id.
Qed.

Lemma db_value_of_int (z : Z) (p : sqlval) :
  IntegerField_db_value (PInt z) = Return (Some p) -> p = SInt z.
Proof.
  simpl. unfold sqlite_int. destruct (_ && _); simpl; [| discriminate]. congruence.
Qed.

Lemma details_price_is_int (w w' : world) (record : Dict.t) :
  get_product_details_from_user w = (Return record, w') ->
  exists z, Dict.product_price record = PInt z.
Proof.
  unfold get_product_details_from_user, bind, ret.
  destruct (input _ w) as [[n | |] w1]; try discriminate.
  destruct (get_quantity_from_user w1) as [[q | |] w2]; try discriminate.
  destruct (get_price_from_user w2) as [[p | |] w3]; try discriminate.
  destruct (datetime_now w3) as [[d | |] w4]; try discriminate.
  intros E. injection E as <- _. now exists p.
Qed.

Lemma appended_get_product_details_from_user :
  respects (appended price_is_int) get_product_details_from_user.
Proof.
  pose proof (appended_trans price_is_int) as T.
  pose proof (console_only_appended price_is_int) as C.
  unfold get_product_details_from_user.
  apply (respects_bind _ T);
    [apply (respects_weaken _ _ _ C), console_only_input | intros name].
  apply (respects_bind _ T);
    [apply (respects_weaken _ _ _ C), console_only_get_quantity_from_user | intros q].
  apply (respects_bind _ T);
    [apply (respects_weaken _ _ _ C), console_only_get_price_from_user | intros p].
  apply (respects_bind _ T); [apply appended_datetime_now | intros now].
  apply respects_ret, appended_refl.
Qed.

Lemma appended_load_row (product : Csv.row) :
  respects (appended price_is_int) (load_row product).
Proof.
  pose proof (appended_trans price_is_int) as T.
  pose proof (appended_refl price_is_int) as Rf.
  unfold load_row. apply (respects_bind _ T).
  { destruct (Csv.product_price product);
      [apply respects_lift | apply respects_raise]; exact Rf. }
  intros price. apply (respects_bind _ T).
  { unfold format_date_str_to_datetime.
    destruct (Csv.date_updated product) as [[| c s] |];
      [apply appended_datetime_now | apply respects_lift, Rf | apply appended_datetime_now]. }
  intros date. apply appended_add_record_to_db. simpl. intros id n q p H.
  exists price. simpl. now apply db_value_of_int.
Qed.

Lemma appended_load_data_from_csv : respects (appended price_is_int) load_data_from_csv.
Proof.
  pose proof (appended_trans price_is_int) as T.
  pose proof (appended_refl price_is_int) as Rf.
  unfold load_data_from_csv. apply (respects_try_except _ T).
  - apply (respects_bind _ T).
    + intros w1. unfold open_inventory_csv. destruct (inventory_csv w1); apply Rf.
    + intros rows. apply (respects_for_each _ Rf T). apply appended_load_row.
  - apply (respects_weaken _ _ _ (console_only_appended price_is_int)),
      console_only_print.
Qed.

(** X10. Whatever is typed at the console and whatever the seed file holds,
    adding a product and importing leave every stored row as it was and
    where it was. They only add rows after them, each with an integer for
    a price, and keys that were distinct stay distinct. *)
Theorem rows_are_only_appended (w : world) :
  appended price_is_int w (snd (add_record w))
  /\ appended price_is_int w (snd (load_data_from_csv w))
  /\ appended price_is_int w (snd (initialize w)).
Proof.
  split; [| split; apply appended_load_data_from_csv].
  revert w. change (respects (appended price_is_int) add_record).
  unfold add_record.
  apply (respects_bind_post (appended price_is_int)
           (fun r => exists z, Dict.product_price r = PInt z)).
  - apply appended_trans.
  - intros w a w'. apply details_price_is_int.
  - apply appended_get_product_details_from_user.
  - intros record [z Hz]. apply appended_add_record_to_db.
    intros id n q p H. exists z. simpl. rewrite Hz in H. now apply db_value_of_int.
Qed.

(** ** Adding at the console, and looking up *)

Lemma input_takes (prompt : string) (w : world) (l : string) (rest : list string) :
  stdin w = l :: rest -> input prompt w = (Return l, console_at w rest [prompt]).
Proof. intros Hin. unfold input. now rewrite Hin. Qed.

Lemma add_record_to_db_stores (record : Dict.t) (w : world) (n : string) (q p : sqlval) :
  Dict.product_name record = Some n ->
  IntegerField_db_value (Dict.product_quantity record) = Return (Some q) ->
  IntegerField_db_value (Dict.product_price record) = Return (Some p) ->
  add_record_to_db record w
  = (Return tt,
     set_table (table w ++ [mk_Product (next_id (table w)) n q p
                              (Dict.date_updated record)]) w).
Proof.
  intros Hn Hq Hp.
  unfold add_record_to_db, try_except, Product_create, bind, lift.
  rewrite Hn, Hq, Hp. reflexivity.
Qed.

Lemma db_value_in_range (z : Z) :
  in_sqlite_range z -> IntegerField_db_value (PInt z) = Return (Some (SInt z)).
Proof.
  intros [H1 H2]. simpl. unfold sqlite_int.
  destruct (Z.leb_spec (- 2 ^ 63) z); [| lia].
  destruct (Z.ltb_spec z (2 ^ 63)); [| lia]. reflexivity.
Qed.

(** X11. A product typed at the console, its quantity an integer and its price
    a line the decoder accepts, is stored as typed under a fresh key and
    stamped with the clock; three prompts are shown and three lines read. *)
Theorem add_record_stores_what_is_typed (w : world) (name qline pline : string)
    (rest : list string) (q p : Z) :
  stdin w = name :: qline :: pline :: rest ->
  py_int qline = Return q -> in_sqlite_range q ->
  has_digit pline = true ->
  format_price_str_to_int pline = Return p -> in_sqlite_range p ->
  add_record w
  = (Return tt,
     mk_world
       (table w ++ [mk_Product (next_id (table w)) name (SInt q) (SInt p) (clock w O)])
       (inventory_csv w) rest
       (stdout w ++ ["Please enter product name: ";
                     "Please enter quantity of product in stock: ";
                     "Please enter product price: "])
       (fun n => clock w (S n))).
Proof.
  intros Hin Hq Rq Hd Hp Rp. rewrite <- search_price_iff_has_digit in Hd.
  unfold add_record, get_product_details_from_user.
  unfold bind at 1. unfold bind at 1.
  rewrite (input_takes _ w name _ Hin).
  set (w1 := console_at w (qline :: pline :: rest) ["Please enter product name: "]).
  unfold bind at 1.
  assert (get_quantity_from_user w1
          = (Return q, console_at w1 (pline :: rest)
                         ["Please enter quantity of product in stock: "])) as ->.
  { exact (int_loop_returns _ _ [] w1 qline (pline :: rest) q (Forall_nil _) eq_refl Hq). }
  set (w2 := console_at w1 (pline :: rest) ["Please enter quantity of product in stock: "]).
  unfold bind at 1.
  assert (get_price_from_user w2
          = (Return p, console_at w2 rest ["Please enter product price: "])) as ->.
  { rewrite <- Hp.
    exact (price_loop_takes [] w2 pline rest (Forall_nil _) eq_refl Hd). }
  unfold bind at 1, datetime_now, ret.
  erewrite add_record_to_db_stores;
    [| reflexivity | exact (db_value_in_range q Rq) | exact (db_value_in_range p Rp)].
  unfold w2, w1, console_at, set_table, set_clock.
  cbn [table inventory_csv stdin stdout clock Dict.date_updated].
  repeat rewrite <- app_assoc. reflexivity.
Qed.

Lemma add_record_stores_what_is_typed_witness :
  let w := world_with [widget_stored] None ["Gadget"; "3"; "$12.50"; "v"] in
  add_record w
  = (Return tt,
     mk_world
       [widget_stored; mk_Product 2 "Gadget" (SInt 3) (SInt 1250) (clock w O)]
       None ["v"]
       ["Please enter product name: "; "Please enter quantity of product in stock: ";
        "Please enter product price: "]
       (fun n => clock w (S n))).
Proof.
  apply (add_record_stores_what_is_typed
           (world_with [widget_stored] None ["Gadget"; "3"; "$12.50"; "v"])
           "Gadget" "3" "$12.50" ["v"] 3 1250);
    try reflexivity; unfold in_sqlite_range; lia.
Defined.

Lemma find_none_all {A} (f : A -> bool) (l : list A) :
  (forall x, In x l -> f x = false) -> find f l = None.
Proof.
  induction l as [| x l IH]; intros H; [reflexivity |]. simpl.
  rewrite (H x (or_introl eq_refl)). apply IH. intros y Hy. apply H. now right.
Qed.

Lemma find_app_none {A} (f : A -> bool) (l l' : list A) :
  find f l = None -> find f (l ++ l') = find f l'.
Proof.
  induction l as [| x l IH]; [reflexivity |]. simpl.
  destruct (f x); [discriminate | exact IH].
Qed.

(** X12. A record stored by [add_record_to_db] is found again under its key:
    the lookup by that key returns exactly the row that was stored. *)
Theorem stored_record_is_found (w : world) (n : string) (q p : Z) (d : datetime) :
  in_sqlite_range q -> in_sqlite_range p -> in_sqlite_range (next_id (table w)) ->
  let w' := snd (add_record_to_db (Dict.mk (Some n) (PInt q) (PInt p) d) w) in
  Product_get_by_id (next_id (table w)) w'
  = (Return (mk_Product (next_id (table w)) n (SInt q) (SInt p) d), w').
Proof.
  intros Rq Rp Rid.
  erewrite add_record_to_db_stores;
    [| reflexivity | exact (db_value_in_range q Rq) | exact (db_value_in_range p Rp)].
  cbn [snd Dict.date_updated]. unfold Product_get_by_id, bind, lift, sqlite_int.
  destruct Rid as [R1 R2].
  destruct (Z.leb_spec (- 2 ^ 63) (next_id (table w))); [| lia].
  destruct (Z.ltb_spec (next_id (table w)) (2 ^ 63)); [| lia].
  cbn [andb]. unfold Product_get. cbn [table set_table].
  rewrite find_app_none.
  - cbn [find product_id]. now rewrite Z.eqb_refl.
  - apply find_none_all. intros x Hx. apply Z.eqb_neq.
    pose proof (next_id_above (table w) x Hx). lia.
Qed.

Lemma stored_record_is_found_witness :
  let w := world_with [widget_stored] None [] in
  let w' := snd (add_record_to_db (Dict.mk (Some "Gadget") (PInt 3) (PInt 1250) march_4_2021) w) in
  Product_get_by_id (next_id (table w)) w'
  = (Return (mk_Product (next_id (table w)) "Gadget" (SInt 3) (SInt 1250) march_4_2021), w').
Proof.
  apply (stored_record_is_found (world_with [widget_stored] None []) "Gadget" 3 1250
           march_4_2021); unfold in_sqlite_range; simpl; lia.
Defined.

(** ** More on the import *)

Lemma db_value_of_int_text (s : string) (z : Z) :
  py_int s = Return z -> in_sqlite_range z ->
  IntegerField_db_value (PStr s) = Return (Some (SInt z)).
Proof.
  intros Hs Hz. cbn [IntegerField_db_value]. rewrite Hs.
  exact (db_value_in_range z Hz).
Qed.

Lemma load_row_stores (r : Csv.row) (n : string) (q p : Z) (d : datetime) (w : world) :
  loads_as r n q p d ->
  load_row r w
  = (Return tt,
     set_table (table w ++ [mk_Product (next_id (table w)) n (SInt q) (SInt p) d]) w).
Proof.
  intros (Hn & (ps & Hps & Hp) & Rp & (qs & Hqs & Hq) & Rq & (ds & Hds & Hne & Hd)).
  unfold load_row. rewrite Hps, Hds, Hqs. unfold bind at 1, lift. rewrite Hp.
  unfold bind at 1. rewrite (decode_date_of_text ds w Hne), Hd.
  erewrite add_record_to_db_stores;
    [reflexivity | exact Hn | exact (db_value_of_int_text qs q Hq Rq)
    | exact (db_value_in_range p Rp)].
Qed.

Lemma load_row_fails (r : Csv.row) (w : world) :
  malformed_line r -> load_row r w = (Raise ValueError, w).
Proof.
  intros (ps & Hps & [Hp | [[p Hp] (ds & Hds & Hne & Hd)]]);
    unfold load_row; rewrite Hps; unfold bind at 1, lift; rewrite Hp; [reflexivity |].
  rewrite Hds. unfold bind at 1. now rewrite (decode_date_of_text ds w Hne), Hd.
Qed.

Lemma set_table_twice (t t' : list (Product sqlval)) (w : world) :
  set_table t (set_table t' w) = set_table t w.
Proof. reflexivity. Qed.

(** The loop over well-formed lines stores them all, in order; if a
    malformed line follows, the loop stops there with its [ValueError]. *)
Lemma for_each_load_row (good : list Csv.row) (tail : list Csv.row) (w : world) :
  Forall well_formed_line good ->
  exists added,
    Forall2 stored_line good added
    /\ for_each load_row (good ++ tail) w
       = for_each load_row tail (set_table (table w ++ added) w).
Proof.
  intros Hgood. revert w. induction Hgood as [| r good (n & q & p & d & Hr) _ IH]; intros w.
  - exists []. split; [constructor |]. simpl. rewrite app_nil_r.
    now destruct w.
  - destruct (IH (set_table
                    (table w ++ [mk_Product (next_id (table w)) n (SInt q) (SInt p) d]) w))
      as (added & Hadded & E).
    exists (mk_Product (next_id (table w)) n (SInt q) (SInt p) d :: added). split.
    + constructor; [| exact Hadded]. exists q, p.
      split; [reflexivity | split; [reflexivity | exact Hr]].
    + cbn [app for_each]. unfold bind at 1. rewrite (load_row_stores r n q p d w Hr).
      rewrite E. cbn [table set_table]. rewrite set_table_twice, <- app_assoc.
      reflexivity.
Qed.

(** X13. A seed file of well-formed lines (the quantity a text that [int]
    accepts, the price and the date texts that their decoders accept) is
    imported whole: one row is added for every line, in the order of the
    file, holding what the line reads as; nothing is printed. The import does not look whether a product is
    there already: importing the same file again (as every start of the
    program does) adds a row for every line once more. *)
Theorem import_adds_a_row_per_line (w : world) (rows : list Csv.row) :
  inventory_csv w = Some rows ->
  Forall well_formed_line rows ->
  exists added again,
    Forall2 stored_line rows added
    /\ Forall2 stored_line rows again
    /\ load_data_from_csv w = (Return tt, set_table (table w ++ added) w)
    /\ load_data_from_csv (set_table (table w ++ added) w)
       = (Return tt, set_table (table w ++ added ++ again) w).
Proof.
  intros Hcsv Hrows.
  assert (forall w1, inventory_csv w1 = Some rows ->
            exists added, Forall2 stored_line rows added
              /\ load_data_from_csv w1 = (Return tt, set_table (table w1 ++ added) w1)) as H.
  { intros w1 H1. destruct (for_each_load_row rows [] w1 Hrows) as (added & Ha & E).
    exists added. split; [exact Ha |].
    unfold load_data_from_csv, try_except, open_inventory_csv. unfold bind at 1.
    rewrite H1. rewrite app_nil_r in E. now rewrite E. }
  destruct (H w Hcsv) as (added & Ha & E).
  destruct (H (set_table (table w ++ added) w) Hcsv) as (again & Hb & E').
  exists added, again. repeat split; try assumption.
  rewrite E'. cbn [table set_table]. now rewrite set_table_twice, app_assoc.
Qed.

Lemma import_adds_a_row_per_line_witness :
  exists added again,
    Forall2 stored_line two_widgets added
    /\ Forall2 stored_line two_widgets again
    /\ load_data_from_csv (world_with [] (Some two_widgets) [])
       = (Return tt,
          set_table (table (world_with [] (Some two_widgets) []) ++ added)
            (world_with [] (Some two_widgets) []))
    /\ load_data_from_csv
         (set_table (table (world_with [] (Some two_widgets) []) ++ added)
            (world_with [] (Some two_widgets) []))
       = (Return tt,
          set_table (table (world_with [] (Some two_widgets) []) ++ added ++ again)
            (world_with [] (Some two_widgets) [])).
Proof.
  apply (import_adds_a_row_per_line (world_with [] (Some two_widgets) []) two_widgets).
  - reflexivity.
  - repeat constructor.
    + exists "Widget", 10, 500, march_4_2021. unfold loads_as, in_sqlite_range.
      simpl. repeat split; try lia; eexists; repeat split; discriminate || reflexivity.
    + exists "Widget", 20, 600, (mk_datetime 2021 3 1 0 0 0 0).
      unfold loads_as, in_sqlite_range.
      simpl. repeat split; try lia; eexists; repeat split; discriminate || reflexivity.
Defined.

(** X14. The import stops at the first line whose price or date is refused,
    with the [ValueError] of the decoder: the lines before it are stored
    and stay stored, the lines after it are not read. *)
Theorem import_stops_at_a_malformed_line (w : world) (good : list Csv.row)
    (bad : Csv.row) (rest : list Csv.row) :
  inventory_csv w = Some (good ++ bad :: rest)%list ->
  Forall well_formed_line good ->
  malformed_line bad ->
  exists added,
    Forall2 stored_line good added
    /\ load_data_from_csv w = (Raise ValueError, set_table (table w ++ added) w).
Proof.
  intros Hcsv Hgood Hbad.
  destruct (for_each_load_row good (bad :: rest) w Hgood) as (added & Ha & E).
  exists added. split; [exact Ha |].
  unfold load_data_from_csv, try_except, open_inventory_csv. unfold bind at 1.
  rewrite Hcsv, E. cbn [for_each]. unfold bind at 1.
  now rewrite (load_row_fails bad _ Hbad).
Qed.

Lemma import_stops_at_a_malformed_line_witness :
  exists added,
    Forall2 stored_line
      [Csv.mk (Some "Widget") (Some "$5.00") (Some "10") (Some "3/4/2021")] added
    /\ load_data_from_csv
         (world_with []
            (Some ([Csv.mk (Some "Widget") (Some "$5.00") (Some "10") (Some "3/4/2021")]
                   ++ Csv.mk (Some "Gadget") (Some "five") (Some "1") (Some "3/4/2021")
                   :: [Csv.mk (Some "Gizmo") (Some "$1.00") (Some "1") (Some "3/4/2021")])%list)
            [])
       = (Raise ValueError,
          set_table
            (table (world_with []
                      (Some ([Csv.mk (Some "Widget") (Some "$5.00") (Some "10") (Some "3/4/2021")]
                             ++ Csv.mk (Some "Gadget") (Some "five") (Some "1") (Some "3/4/2021")
                             :: [Csv.mk (Some "Gizmo") (Some "$1.00") (Some "1")
                                   (Some "3/4/2021")])%list)
                      [])
             ++ added)
            (world_with []
               (Some ([Csv.mk (Some "Widget") (Some "$5.00") (Some "10") (Some "3/4/2021")]
                      ++ Csv.mk (Some "Gadget") (Some "five") (Some "1") (Some "3/4/2021")
                      :: [Csv.mk (Some "Gizmo") (Some "$1.00") (Some "1") (Some "3/4/2021")])%list)
               [])).
Proof.
  apply (import_stops_at_a_malformed_line _
           [Csv.mk (Some "Widget") (Some "$5.00") (Some "10") (Some "3/4/2021")]
           (Csv.mk (Some "Gadget") (Some "five") (Some "1") (Some "3/4/2021"))
           [Csv.mk (Some "Gizmo") (Some "$1.00") (Some "1") (Some "3/4/2021")]).
  - reflexivity.
  - repeat constructor.
    exists "Widget", 10, 500, march_4_2021. unfold loads_as, in_sqlite_range.
    simpl. repeat split; try lia; eexists; repeat split; discriminate || reflexivity.
  - exists "five". split; [reflexivity | now left].
Defined.

(** ** The backup *)

Lemma backup_db_to_csv_run (g : defaults) (w : world) (old : option string) :
  backup_db_to_csv g (w, old)
  = (Return tt,
     (w, Some (fold_left (fun written product => written ++ product_row g product)
                 (table w) ""))).
Proof. reflexivity. Qed.

(** X15. The backup follows the table. Whatever [backup.csv] held before, the
    backup taken after [add_record_to_db] is the backup that would have
    been taken before it, or that text with one line more at its end, the
    line of the row that was added. The lines of the rows already stored
    are not touched, and the backup changes nothing in the state. *)
Theorem backup_grows_with_the_table (g : defaults) (record : Dict.t) (w : world)
    (old old' : option string) :
  exists before,
    backup_db_to_csv g (w, old) = (Return tt, (w, Some before))
    /\ let w' := snd (add_record_to_db record w) in
       backup_db_to_csv g (w', old') = (Return tt, (w', Some before))
       \/ exists row,
            table w' = (table w ++ [row])%list
            /\ backup_db_to_csv g (w', old')
               = (Return tt, (w', Some (before ++ product_row g row))).
Proof.
  eexists. split; [apply backup_db_to_csv_run |]. cbv zeta.
  destruct (add_record_to_db_cases record w) as [E | (n & q & p & _ & _ & _ & E)];
    rewrite E.
  - left. apply backup_db_to_csv_run.
  - right. eexists. split; [reflexivity |].
    rewrite backup_db_to_csv_run. cbn [snd table set_table].
    now rewrite fold_left_app.
Qed.

(** ** The menu *)

Lemma ask_action_run (g : defaults) (w : world) (l : string) (rest : list string) :
  stdin w = l :: rest ->
  ask_action g w = (Return (choice_of l), console_at w rest menu_shown).
Proof.
  intros Hin. unfold ask_action, menu. cbn [for_each]. run_io. rewrite Hin.
  unfold console_at, set_stdin, set_stdout, menu_shown, choice_of.
  cbn [table inventory_csv stdin stdout clock].
  repeat rewrite <- app_assoc. reflexivity.
Qed.

Lemma ask_action_end (g : defaults) (w : world) :
  stdin w = [] ->
  ask_action g w = (Raise EOFError, console_at w [] menu_shown).
Proof.
  intros Hin. unfold ask_action, menu. cbn [for_each]. run_io. rewrite Hin.
  unfold console_at, set_stdin, set_stdout, menu_shown.
  cbn [table inventory_csv stdin stdout clock]. rewrite Hin.
  repeat rewrite <- app_assoc. reflexivity.
Qed.

Lemma menu_get_unknown (g : defaults) (choice : string) :
  choice <> "a" -> choice <> "v" -> choice <> "b" -> menu_get g choice = None.
Proof.
  intros Ha Hv Hb. unfold menu_get, menu. cbn [find fst].
  rewrite (proj2 (String.eqb_neq "a" choice)) by congruence.
  rewrite (proj2 (String.eqb_neq "v" choice)) by congruence.
  rewrite (proj2 (String.eqb_neq "b" choice)) by congruence.
  reflexivity.
Qed.

(** A round over a line that stands for no command and not for [q]. *)
Lemma menu_round_unknown (g : defaults) (w : world) (f : option string) (l : string)
    (rest lines : list string) :
  stdin w = l :: rest -> unknown_choice l ->
  menu_loop g (l :: lines) (w, f) = menu_loop g lines (console_at w rest menu_shown, f).
Proof.
  intros Hin (Ha & Hv & Hb & Hq). cbn [menu_loop]. unfold Run_bind at 1, in_world.
  cbn [fst snd]. rewrite (ask_action_run g w l rest Hin).
  rewrite (menu_get_unknown g _ Ha Hv Hb). unfold Run_bind at 1, Run_ret.
  now rewrite (proj2 (String.eqb_neq (choice_of l) "q") Hq).
Qed.

(** A round over a line that stands for [q]. *)
Lemma menu_round_quit (g : defaults) (w : world) (f : option string) (l : string)
    (rest lines : list string) :
  stdin w = l :: rest -> choice_of l = "q" ->
  menu_loop g lines (w, f) = (Return tt, (console_at w rest menu_shown, f)).
Proof.
  intros Hin Hq.
  assert (forall k : string -> Run unit,
             Run_bind (in_world (ask_action g)) k (w, f)
             = k "q" (console_at w rest menu_shown, f)) as E.
  { intros k. unfold Run_bind, in_world. cbn [fst snd].
    now rewrite (ask_action_run g w l rest Hin), Hq. }
  destruct lines; cbn [menu_loop]; rewrite E; reflexivity.
Qed.

Lemma menu_loop_skips (g : defaults) (junk : list string) (w : world) (f : option string)
    (tail : list string) :
  Forall unknown_choice junk ->
  stdin w = (junk ++ tail)%list ->
  menu_loop g (stdin w) (w, f)
  = menu_loop g tail (console_at w tail (flat_map (fun _ => menu_shown) junk), f).
Proof.
  intros Hjunk. revert w. induction Hjunk as [| l junk Hl _ IH]; intros w Hin.
  - simpl in Hin. rewrite Hin at 1. cbn [flat_map]. now rewrite <- Hin, console_at_nil.
  - rewrite Hin. cbn [app]. rewrite (menu_round_unknown g w f l (junk ++ tail) _ Hin Hl).
    specialize (IH (console_at w (junk ++ tail) menu_shown) eq_refl).
    cbn [stdin console_at] in IH. unfold console_at at 1 in IH. cbn [stdin] in IH.
    fold (console_at w (junk ++ tail) menu_shown) in IH.
    rewrite IH, console_at_twice. reflexivity.
Qed.

(** X16. Lines that stand for no command are passed over: the menu is shown
    again and nothing else happens. A line that reads [q] once put in
    lower case and stripped of blanks ends the program normally; the lines
    after it stay unread, and the table and the backup file are as the
    import left them. *)
Theorem main_passes_over_unknown_choices (g : defaults) (w w1 : world)
    (f : option string) (junk : list string) (quit : string) (rest : list string) :
  initialize w = (Return tt, w1) ->
  stdin w1 = (junk ++ quit :: rest)%list ->
  Forall unknown_choice junk ->
  choice_of quit = "q" ->
  main g (w, f)
  = (Return tt,
     (console_at w1 rest (flat_map (fun _ => menu_shown) (junk ++ [quit])), f)).
Proof.
  intros Hinit Hin Hjunk Hq. unfold main, Run_bind at 1, in_world. cbn [fst snd].
  rewrite Hinit. cbn [fst snd].
  rewrite (menu_loop_skips g junk w1 f (quit :: rest) Hjunk Hin).
  rewrite (menu_round_quit g
             (console_at w1 (quit :: rest) (flat_map (fun _ => menu_shown) junk))
             f quit rest (quit :: rest) eq_refl Hq).
  rewrite console_at_twice, flat_map_app. cbn [flat_map]. now rewrite app_nil_r.
Qed.

Lemma main_passes_over_unknown_choices_witness :
  let w := world_with [widget_stored] None ["x"; ""; "help"; " Q "; "a"] in
  main (mk_defaults march_4_2021) (w, None)
  = (Return tt,
     (console_at (snd (initialize w)) ["a"]
        (flat_map (fun _ => menu_shown) (["x"; ""; "help"] ++ [" Q "])), None)).
Proof.
  apply (main_passes_over_unknown_choices (mk_defaults march_4_2021)
           (world_with [widget_stored] None ["x"; ""; "help"; " Q "; "a"])
           (snd (initialize (world_with [widget_stored] None ["x"; ""; "help"; " Q "; "a"])))
           None ["x"; ""; "help"] " Q " ["a"]); try reflexivity.
  repeat constructor; discriminate.
Defined.

Lemma append_empty_r (a : string) : a ++ "" = a.
Proof. induction a as [| x a IH]; simpl; [reflexivity | now rewrite IH]. Qed.

Lemma fold_left_written (g : defaults) (t : list (Product sqlval)) (acc : string) :
  fold_left (fun written product => written ++ product_row g product) t acc
  = acc ++ joined (map (product_row g) t).
Proof.
  revert acc. induction t as [| p t IH]; intros acc; simpl.
  - now rewrite append_empty_r.
  - now rewrite IH, append_assoc.
Qed.

Lemma menu_round_backup (g : defaults) (w : world) (f : option string) (l : string)
    (rest lines : list string) :
  stdin w = l :: rest -> choice_of l = "b" ->
  menu_loop g (l :: lines) (w, f)
  = menu_loop g lines
      (console_at w rest menu_shown, Some (joined (map (product_row g) (table w)))).
Proof.
  intros Hin Hb. cbn [menu_loop]. unfold Run_bind at 1, in_world.
  cbn [fst snd]. rewrite (ask_action_run g w l rest Hin), Hb.
  unfold Run_bind at 1. cbn -[menu_loop backup_db_to_csv].
  rewrite backup_db_to_csv_run, fold_left_written. reflexivity.
Qed.

(** X17. Choosing [b] (in either case, with blanks around it) writes
    [backup.csv] anew, whatever it held: the lines of the stored rows one
    after another, in the order of the table, and nothing else. The table
    is not changed and nothing but the menu is printed. *)
Theorem main_backup (g : defaults) (w w1 : world) (f : option string)
    (b quit : string) (rest : list string) :
  initialize w = (Return tt, w1) ->
  stdin w1 = b :: quit :: rest ->
  choice_of b = "b" ->
  choice_of quit = "q" ->
  main g (w, f)
  = (Return tt,
     (console_at w1 rest (menu_shown ++ menu_shown),
      Some (joined (map (product_row g) (table w1))))).
Proof.
  intros Hinit Hin Hb Hq. unfold main, Run_bind at 1, in_world. cbn [fst snd].
  rewrite Hinit. cbn [fst snd]. rewrite Hin.
  rewrite (menu_round_backup g w1 f b (quit :: rest) _ Hin Hb).
  rewrite (menu_round_quit g (console_at w1 (quit :: rest) menu_shown) _ quit rest
             (quit :: rest) eq_refl Hq).
  now rewrite console_at_twice.
Qed.

Lemma main_backup_witness :
  let w := world_with [widget_stored] None [" B"; "q"] in
  main (mk_defaults march_4_2021) (w, Some "old")
  = (Return tt,
     (console_at (snd (initialize w)) [] (menu_shown ++ menu_shown),
      Some (joined (map (product_row (mk_defaults march_4_2021))
                      (table (snd (initialize w))))))).
Proof.
  apply (main_backup (mk_defaults march_4_2021)
           (world_with [widget_stored] None [" B"; "q"])
           (snd (initialize (world_with [widget_stored] None [" B"; "q"])))
           (Some "old") " B" "q" []); reflexivity.
Defined.

Example backup_line :
  product_row (mk_defaults march_4_2021) widget_stored
  = "1,Widget,$5.00,10,03/04/2021" ++ newline.
Proof. reflexivity. Qed.

Lemma menu_get_a (g : defaults) : menu_get g "a" = Some (in_world add_record).
Proof. reflexivity. Qed.

(** X18. A price line that holds a digit but that the decoder refuses ends the
    whole program: chosen from the menu, the add command lets the
    [ValueError] through, the loop does not catch it, and nothing is
    stored. *)
Theorem main_dies_on_a_mistyped_price (g : defaults) (w w1 : world) (f : option string)
    (a name qline pline : string) (rest : list string) (q : Z) :
  initialize w = (Return tt, w1) ->
  stdin w1 = a :: name :: qline :: pline :: rest ->
  choice_of a = "a" ->
  py_int qline = Return q ->
  has_digit pline = true ->
  format_price_str_to_int pline = Raise ValueError ->
  main g (w, f)
  = (Raise ValueError,
     (console_at w1 rest
        (menu_shown ++ ["Please enter product name: ";
                        "Please enter quantity of product in stock: ";
                        "Please enter product price: "]), f)).
Proof.
  intros Hinit Hin Ha Hq Hd Hp. rewrite <- search_price_iff_has_digit in Hd.
  unfold main, Run_bind at 1, in_world. cbn [fst snd].
  rewrite Hinit. cbn [fst snd]. rewrite Hin.
  cbn [menu_loop]. unfold Run_bind at 1, in_world. cbn [fst snd].
  rewrite (ask_action_run g w1 a _ Hin), Ha, menu_get_a.
  unfold Run_bind at 1, in_world. cbn [fst snd].
  set (w2 := console_at w1 (name :: qline :: pline :: rest) menu_shown).
  unfold add_record, get_product_details_from_user.
  unfold bind at 1. unfold bind at 1.
  rewrite (input_takes _ w2 name (qline :: pline :: rest) eq_refl).
  set (w3 := console_at w2 (qline :: pline :: rest) ["Please enter product name: "]).
  unfold bind at 1.
  assert (get_quantity_from_user w3
          = (Return q, console_at w3 (pline :: rest)
                         ["Please enter quantity of product in stock: "])) as ->.
  { exact (int_loop_returns _ _ [] w3 qline (pline :: rest) q (Forall_nil _) eq_refl Hq). }
  set (w4 := console_at w3 (pline :: rest) ["Please enter quantity of product in stock: "]).
  unfold bind at 1.
  assert (get_price_from_user w4
          = (Raise ValueError, console_at w4 rest ["Please enter product price: "])) as ->.
  { rewrite <- Hp.
    exact (price_loop_takes [] w4 pline rest (Forall_nil _) eq_refl Hd). }
  unfold w4, w3, w2. rewrite !console_at_twice.
  repeat rewrite <- app_assoc. reflexivity.
Qed.

Lemma main_dies_on_a_mistyped_price_witness :
  let w := world_with [widget_stored] None ["A"; "Gadget"; "3"; "12,50"; "q"] in
  main (mk_defaults march_4_2021) (w, None)
  = (Raise ValueError,
     (console_at (snd (initialize w)) ["q"]
        (menu_shown ++ ["Please enter product name: ";
                        "Please enter quantity of product in stock: ";
                        "Please enter product price: "]), None)).
Proof.
  apply (main_dies_on_a_mistyped_price (mk_defaults march_4_2021)
           (world_with [widget_stored] None ["A"; "Gadget"; "3"; "12,50"; "q"])
           (snd (initialize (world_with [widget_stored] None
                               ["A"; "Gadget"; "3"; "12,50"; "q"])))
           None "A" "Gadget" "3" "12,50" ["q"] 3); reflexivity.
Defined.

(** ** The bound of the menu loop *)

Lemma input_used_refl (w : world) : input_used w w.
Proof. now exists []. Qed.

Lemma input_used_trans (a b c : world) :
  input_used a b -> input_used b c -> input_used a c.
Proof.
  intros [u1 U1] [u2 U2]. exists (u1 ++ u2)%list. now rewrite U1, U2, app_assoc.
Qed.

Lemma console_only_input_used (w w' : world) : console_only w w' -> input_used w w'.
Proof. intros (_ & _ & _ & _ & H). exact H. Qed.

Lemma input_used_add_record : respects input_used add_record.
Proof.
  pose proof input_used_trans as T.
  unfold add_record, get_product_details_from_user.
  apply (respects_bind _ T).
  - apply (respects_bind _ T);
      [apply (respects_weaken _ _ _ console_only_input_used), console_only_input
      | intros name].
    apply (respects_bind _ T);
      [apply (respects_weaken _ _ _ console_only_input_used),
         console_only_get_quantity_from_user | intros q].
    apply (respects_bind _ T);
      [apply (respects_weaken _ _ _ console_only_input_used),
         console_only_get_price_from_user | intros p].
    apply (respects_bind _ T); [intros w; now exists [] | intros now].
    apply respects_ret, input_used_refl.
  - intros record w.
    destruct (add_record_to_db_cases record w) as [E | (n & q & p & _ & _ & _ & E)];
      rewrite E; now exists [].
Qed.

(** What a round runs for a choice never puts input back. *)
Lemma chosen_action_uses_input (g : defaults) (choice : string) (s : session) :
  input_used (fst s)
    (fst (snd (match menu_get g choice with
               | Some action => action
               | None => Run_ret tt
               end s))).
Proof.
  unfold menu_get, menu. cbn [find fst snd].
  destruct (String.eqb "a" choice).
  { cbn [snd]. unfold in_world. pose proof (input_used_add_record (fst s)) as H.
    destruct (add_record (fst s)). exact H. }
  destruct (String.eqb "v" choice).
  { cbn [snd]. unfold in_world.
    pose proof (console_only_input_used _ _ (console_only_view_product_by_id g (fst s))) as H.
    destruct (view_product_by_id g (fst s)). exact H. }
  destruct (String.eqb "b" choice); apply input_used_refl.
Qed.

Lemma menu_loop_end (g : defaults) (lines : list string) (w : world) (f : option string) :
  stdin w = [] ->
  menu_loop g lines (w, f) = (Raise EOFError, (console_at w [] menu_shown, f)).
Proof.
  intros Hin.
  destruct lines; cbn [menu_loop]; unfold Run_bind at 1, in_world; cbn [fst snd];
    now rewrite (ask_action_end g w Hin).
Qed.

(** The run of the menu loop is the same under every bound that is at
    least the number of lines unread: the bound is never what ends it. *)
Lemma menu_loop_bound (g : defaults) (lines lines' : list string) (s : session) :
  (List.length (stdin (fst s)) <= List.length lines)%nat ->
  (List.length (stdin (fst s)) <= List.length lines')%nat ->
  menu_loop g lines s = menu_loop g lines' s.
Proof.
  revert lines' s. induction lines as [| x lines IH]; intros lines' [w f] H1 H2;
    cbn [fst] in *.
  - destruct (stdin w) eqn:Hin; [| simpl in H1; lia].
    now rewrite !menu_loop_end.
  - destruct (stdin w) as [| l rest] eqn:Hin; [now rewrite !menu_loop_end |].
    destruct lines' as [| y lines']; [simpl in H2; lia |].
    cbn [menu_loop]. unfold Run_bind at 1 3, in_world. cbn [fst snd].
    rewrite (ask_action_run g w l rest Hin).
    pose proof (chosen_action_uses_input g (choice_of l)
                  (console_at w rest menu_shown, f)) as [used Hu].
    unfold Run_bind.
    destruct (match menu_get g (choice_of l) with
              | Some action => action
              | None => Run_ret tt
              end (console_at w rest menu_shown, f)) as [[u | e |] s3]; try reflexivity.
    destruct (String.eqb (choice_of l) "q"); [reflexivity |].
    cbn [fst snd stdin console_at] in Hu.
    assert (List.length (stdin (fst s3)) <= List.length rest)%nat as L.
    { rewrite Hu, List.length_app. lia. }
    simpl in H1, H2. apply IH; lia.
Qed.

(** X19. When the input ends while the menu waits for a choice, after lines
    that stand for no command, the program ends with [EOFError]: the menu
    loop has no way out but [q]. *)
Theorem main_ends_with_the_input (g : defaults) (w w1 : world) (f : option string)
    (junk : list string) :
  initialize w = (Return tt, w1) ->
  stdin w1 = junk ->
  Forall unknown_choice junk ->
  main g (w, f)
  = (Raise EOFError,
     (console_at w1 [] (flat_map (fun _ => menu_shown) junk ++ menu_shown), f)).
Proof.
  intros Hinit Hin Hjunk. unfold main, Run_bind at 1, in_world. cbn [fst snd].
  rewrite Hinit. cbn [fst snd].
  rewrite (menu_loop_skips g junk w1 f [] Hjunk) by now rewrite app_nil_r.
  rewrite menu_loop_end by reflexivity. now rewrite console_at_twice.
Qed.

Lemma main_ends_with_the_input_witness :
  let w := world_with [widget_stored] None ["x"; "quit"] in
  main (mk_defaults march_4_2021) (w, None)
  = (Raise EOFError,
     (console_at (snd (initialize w)) []
        (flat_map (fun _ => menu_shown) ["x"; "quit"] ++ menu_shown), None)).
Proof.
  apply (main_ends_with_the_input (mk_defaults march_4_2021)
           (world_with [widget_stored] None ["x"; "quit"])
           (snd (initialize (world_with [widget_stored] None ["x"; "quit"])))
           None ["x"; "quit"]); try reflexivity.
  repeat constructor; discriminate.
Defined.

(** ** The check of the price prompt and the decoder *)

Lemma int_body_needs_digit (s : string) (acc : Z) (after_digit : bool) (v : Z)
    (rest : string) :
  int_body acc after_digit s = Some (v, rest) ->
  after_digit = true \/ has_digit s = true.
Proof.
  revert acc after_digit. induction s as [| c s IH]; intros acc b; simpl.
  - destruct b; [now left | discriminate].
  - unfold Str.is_digit. destruct (Str.digit c) as [d |]; [now right |].
    destruct (Ascii.eqb c "_"); destruct b; try discriminate; now left.
Qed.

Lemma skip_spaces_has_digit (s : string) :
  has_digit (skip_spaces s) = true -> has_digit s = true.
Proof.
  induction s as [| c s IH]; simpl; [trivial |].
  destruct (is_space c); [| trivial]. intros H. rewrite (IH H). apply orb_true_r.
Qed.

Lemma py_int_needs_digit (s : string) (z : Z) :
  py_int s = Return z -> has_digit s = true.
Proof.
  unfold py_int. intros H. apply skip_spaces_has_digit.
  destruct (skip_spaces s) as [| c r] eqn:E.
  - simpl in H. discriminate.
  - assert (forall sign t,
              match int_body 0 false t with
              | Some (v, rest) =>
                  match skip_spaces rest with
                  | EmptyString => Return (sign * v)
                  | _ => Raise ValueError
                  end
              | None => Raise ValueError
              end = Return z -> has_digit t = true) as K.
    { intros sign t Ht. destruct (int_body 0 false t) as [[v rest] |] eqn:Eb;
        [| discriminate].
      destruct (int_body_needs_digit t 0 false v rest Eb) as [F | Hd];
        [discriminate | exact Hd]. }
    destruct (Ascii.eqb_spec c "+") as [-> | Np].
    { simpl. apply (K 1 r H). }
    destruct (Ascii.eqb_spec c "-") as [-> | Nm].
    { simpl. apply (K (-1) r H). }
    apply (K 1 (String c r)).
    destruct c as [[] [] [] [] [] [] [] []]; try exact H; congruence.
Qed.

Lemma remove_has_digit (cls : ascii -> bool) (s : string) :
  has_digit (Str.remove cls s) = true -> has_digit s = true.
Proof.
  induction s as [| c s IH]; simpl; [trivial |].
  destruct (cls c); simpl.
  - intros H. rewrite (IH H). apply orb_true_r.
  - destruct (Str.is_digit c); [trivial |]. simpl. exact IH.
Qed.

(** X20. The check of the price prompt refuses no line that the decoder would
    accept: whatever text is decoded to a price holds a digit, and so
    passes the search. The check only keeps out lines the decoder would
    refuse anyway; it does not keep out all of them. *)
Theorem decodable_price_passes_the_check (l : string) (p : Z) :
  format_price_str_to_int l = Return p -> Re.search_price l = true.
Proof.
  intros H. rewrite search_price_iff_has_digit. unfold format_price_str_to_int in H.
  destruct (Str.contains "." l).
  - apply (remove_has_digit is_dollar_or_dot), (py_int_needs_digit _ p H).
  - destruct (py_int (Str.remove is_dollar l)) as [z | |] eqn:E; try discriminate.
    apply (remove_has_digit is_dollar), (py_int_needs_digit _ z E).
Qed.

Lemma decodable_price_passes_the_check_witness : Re.search_price "$12.50" = true.
Proof. apply (decodable_price_passes_the_check "$12.50" 1250). reflexivity. Defined.
